(** * The forge MCP conformance scripts, embedded in Rocq

    The repository drives the forge server (`./target/debug/forge --mcp`)
    over its standard input and output with seven Python scripts.  Each
    script spawns the server, writes JSON-RPC requests one line at a time,
    reads one line back after each, prints what it saw, and shuts the child
    down in a `finally` block.

    The embedding is shallow: a script is a function from the setting it
    runs in and the behaviour of the child process to the outcome of the
    call and the log of everything the script did.  Python's control flow
    (exceptions, `return` inside `try`, `finally`) is carried by a small
    outcome monad.

    What a script cannot control is given from outside: whether the
    program is there to be started; at each exchange, whether the child
    takes the request and what comes back (a line, nothing at all at end
    of stream, bytes that are no text, silence); what the child does on
    SIGTERM; and the user's interrupt, which is taken where a script
    waits, in `readline()` and in `wait()`.  `print` writes to the
    script's own output and always completes. *)

From Stdlib Require Import String Ascii List ZArith Bool Lia FinFun.
Import ListNotations.
Open Scope string_scope.
Open Scope list_scope.
#[local] Set Warnings "-register-all".

(** ** Decoded JSON documents *)

Module Json.

(** What `json.loads` returns: `None`, `bool`, `int`, `float`, `str`,
    `list`, `dict`.  A float is kept as the text of its literal, since no
    script computes with one.  A dict is an association list; `assoc`
    takes the first binding of a key. *)
Inductive json : Type :=
| JNull
| JBool (b : bool)
| JInt (n : Z)
| JFloat (literal : string)
| JStr (s : string)
| JArr (xs : list json)
| JObj (kvs : list (string * json)).

Fixpoint assoc (k : string) (kvs : list (string * json)) : option json :=
  match kvs with
  | [] => None
  | (k', v) :: rest => if String.eqb k k' then Some v else assoc k rest
  end.

Definition has_key (k : string) (kvs : list (string * json)) : bool :=
  match assoc k kvs with Some _ => true | None => false end.

End Json.
Export Json.

(** ** The Python operations the scripts apply to decoded documents *)

Module Py.

(** The exception classes that can arise in the scripts.  All but the
    last two derive from `Exception`; `KeyboardInterrupt` and `SystemExit`
    derive from `BaseException` only, so `except Exception` lets them
    through.  `JSONDecodeError` and `UnicodeDecodeError` are subclasses of
    `ValueError`; `ValueError` stands for the one `json.loads` raises
    itself, on an integer literal with more digits than the interpreter
    converts.  `FileNotFoundError` is what `subprocess.Popen` raises when
    the program is not there. *)
Inductive exn : Type :=
| JSONDecodeError
| KeyError
| TypeError
| AttributeError
| IndexError
| BrokenPipeError
| UnboundLocalError
| UnicodeDecodeError
| RecursionError
| ValueError
| FileNotFoundError
| KeyboardInterrupt
| SystemExit (code : Z).

Definition is_Exception (e : exn) : bool :=
  match e with
  | KeyboardInterrupt | SystemExit _ => false
  | _ => true
  end.

(** `UnboundLocalError` is the subclass of `NameError` raised when a local
    name is read before any assignment to it has run. *)
Definition is_NameError (e : exn) : bool :=
  match e with UnboundLocalError => true | _ => false end.

(** The value of a Python expression: a value, or the exception raised. *)
Inductive res (A : Type) : Type :=
| Ok (a : A)
| Err (e : exn).
Arguments Ok {A} a.
Arguments Err {A} e.

Definition is_str (k : string) (x : json) : bool :=
  match x with JStr s => String.eqb s k | _ => false end.

(** `needle in haystack` on two `str`: substring search. *)
Fixpoint infix (needle hay : string) : bool :=
  prefix needle hay ||
  match hay with
  | EmptyString => false
  | String _ rest => infix needle rest
  end.

(** `k in c` for a string `k`: key membership on a dict, element
    membership on a list, substring search on a str, `TypeError` on the
    values that are not iterable. *)
Definition contains (k : string) (c : json) : res bool :=
  match c with
  | JObj kvs => Ok (has_key k kvs)
  | JArr xs => Ok (existsb (is_str k) xs)
  | JStr s => Ok (infix k s)
  | _ => Err TypeError
  end.

(** `c[k]` for a string `k`. *)
Definition getitem (c : json) (k : string) : res json :=
  match c with
  | JObj kvs => match assoc k kvs with Some v => Ok v | None => Err KeyError end
  | _ => Err TypeError
  end.

Definition chars (s : string) : list json :=
  map (fun a => JStr (String a EmptyString)) (list_ascii_of_string s).

(** `c[0]`. *)
Definition getitem0 (c : json) : res json :=
  match c with
  | JArr xs => match xs with x :: _ => Ok x | [] => Err IndexError end
  | JStr s => match chars s with x :: _ => Ok x | [] => Err IndexError end
  | JObj _ => Err KeyError
  | _ => Err TypeError
  end.

(** `c.get(k, default)`: only a dict has the method. *)
Definition get (c : json) (k : string) (default : json) : res json :=
  match c with
  | JObj kvs => Ok (match assoc k kvs with Some v => v | None => default end)
  | _ => Err AttributeError
  end.

(** `len(c)`.  A str is kept as its bytes, so its length here is Python's
    for text in ASCII. *)
Definition len (c : json) : res Z :=
  match c with
  | JObj kvs => Ok (Z.of_nat (length kvs))
  | JArr xs => Ok (Z.of_nat (length xs))
  | JStr s => Ok (Z.of_nat (String.length s))
  | _ => Err TypeError
  end.

Definition lower_ascii (a : ascii) : ascii :=
  let n := nat_of_ascii a in
  if (65 <=? n)%nat && (n <=? 90)%nat then ascii_of_nat (n + 32) else a.

Fixpoint lower_string (s : string) : string :=
  match s with
  | EmptyString => EmptyString
  | String a rest => String (lower_ascii a) (lower_string rest)
  end.

(** `c.lower()`: only a str has the method.  The letters `A` to `Z` are
    lowered; no other character lowers to a letter of `permission` followed
    by the next one, so the search of test 3 sees what Python's sees. *)
Definition lower (c : json) : res string :=
  match c with
  | JStr s => Ok (lower_string s)
  | _ => Err AttributeError
  end.

(** The items a `for` loop over `c` visits. *)
Definition iter (c : json) : res (list json) :=
  match c with
  | JArr xs => Ok xs
  | JObj kvs => Ok (map (fun kv => JStr (fst kv)) kvs)
  | JStr s => Ok (chars s)
  | _ => Err TypeError
  end.

(** One line as `process.stdout.readline()` returns it, seen through what
    the script can do with it: test it for emptiness, strip it, decode it.
    `EOF` is the empty string returned at end of stream; `Undecodable` is a
    non-empty line whose stripped text `json.loads` rejects with
    `JSONDecodeError`; `Encodes j` is a non-empty line whose stripped text
    `json.loads` decodes to `j`; `TooDeep` is a non-empty line nested so
    deep that `json.loads` raises `RecursionError`; `TooManyDigits` is a
    non-empty line with an integer literal so long that `json.loads` raises
    `ValueError`. *)
Inductive line : Type :=
| EOF
| Undecodable
| Encodes (j : json)
| TooDeep
| TooManyDigits.

(** `if response_line:` *)
Definition truthy (l : line) : bool :=
  match l with EOF => false | _ => true end.

(** `json.loads(response_line.strip())` *)
Definition loads_strip (l : line) : res json :=
  match l with
  | Encodes j => Ok j
  | TooDeep => Err RecursionError
  | TooManyDigits => Err ValueError
  | EOF | Undecodable => Err JSONDecodeError
  end.

End Py.
Export Py.

(** ** The child process, the log, and the outcome monad *)

Module Harness.

(** What the child does at one exchange.  The head of the list is looked at
    by `stdin.write`, which consumes it when it is `Refuses`, and consumed
    by `stdout.readline` otherwise.
    - `Refuses`: the child has closed its input; the write raises
      `BrokenPipeError`.
    - `Silent`: the write is accepted, the child prints no line and keeps
      its output open; `readline()` has no timeout argument and never
      returns.
    - `Interrupt`: the write is accepted and the user interrupts the script
      while it waits in `readline()`; `KeyboardInterrupt` is raised there.
      (The other call in which a script waits is `wait()`: see
      `obedience`.)
    - `Says l`: the write is accepted and `readline()` returns `l`.
    - `Garbles`: the write is accepted and the child answers with bytes
      that are not UTF-8; the pipes are opened with `text=True`, so
      `readline()` raises `UnicodeDecodeError`.
    An exhausted list is a child that has exited: writes are refused and
    reads return the empty string. *)
Inductive reply : Type :=
| Refuses
| Silent
| Interrupt
| Says (l : line)
| Garbles.

(** A value interpolated into a printed line: a document, a number, the
    text `l.strip()` of a line `l`, an exception. *)
Inductive arg : Type :=
| AJson (j : json)
| AInt (n : Z)
| AStripped (l : line)
| AExn (e : exn).

(** Everything a script does that can be seen from outside, in order.
    `Popen argv` is a child that was started, `Readline l` a call of
    `readline()` that returned `l`, `Wait` a call of `wait()` that
    returned: a call that raises or never returns leaves no event.
    `Print t args` is a `print` call: `t` is the text as written in the
    source, holes included, and `args` are the values of the holes. *)
Inductive event : Type :=
| Popen (argv : list string)
| Write (request : json)
| Flush
| Readline (l : line)
| Print (text : string) (args : list arg)
| PrintExc (e : exn)
| Terminate
| Wait.

(** What a child that gets SIGTERM from `process.terminate()` does while
    the script is in `process.wait()`, which has no timeout: it exits, and
    `wait()` returns; or it lives on, and `wait()` never returns; or it
    lives on until the user interrupts the script, and `wait()` raises
    `KeyboardInterrupt`. *)
Inductive obedience : Type :=
| Exits
| Lingers
| LingersUntilInterrupt.

(** Where a script runs: whether the program `./target/debug/forge` is
    there to be started, and what the child does on SIGTERM. *)
Record setting : Type := mkSetting {
  binary : bool;
  on_sigterm : obedience
}.

(** The program is there and the child exits on SIGTERM. *)
Definition usual : setting := mkSetting true Exits.

(** The child's remaining behaviour, the reading of `time.time()`, the
    events so far, the latest first, and the setting. *)
Record world : Type := mkWorld {
  child : list reply;
  clock : Z;
  past : list event;
  env : setting
}.

(** The events in the order they happened. *)
Definition log (w : world) : list event := rev_append (past w) [].

(** What a Python function returns. *)
Inductive pyret : Type :=
| RNone
| RBool (b : bool).

(** How a block of statements ends: it falls through with a value, it
    executes `return`, it raises, or it never ends. *)
Inductive outcome (A : Type) : Type :=
| Normal (a : A)
| Returned (v : pyret)
| Raised (e : exn)
| Blocked.
Arguments Normal {A} a.
Arguments Returned {A} v.
Arguments Raised {A} e.
Arguments Blocked {A}.

Definition M (A : Type) : Type := world -> outcome A * world.

Definition ret {A} (a : A) : M A := fun w => (Normal a, w).

Definition bind {A B} (m : M A) (k : A -> M B) : M B :=
  fun w =>
    match m w with
    | (Normal a, w') => k a w'
    | (Returned v, w') => (Returned v, w')
    | (Raised e, w') => (Raised e, w')
    | (Blocked, w') => (Blocked, w')
    end.

Declare Scope py_scope.
Delimit Scope py_scope with py.
Notation "x <- m ;; k" := (bind m (fun x => k))
  (at level 100, m at next level, right associativity) : py_scope.
Notation "m ;; k" := (bind m (fun _ => k))
  (at level 100, right associativity) : py_scope.
Open Scope py_scope.

Definition emit (e : event) : M unit :=
  fun w => (Normal tt, mkWorld (child w) (clock w) (e :: past w) (env w)).

(** `return v` *)
Definition return_ {A} (v : pyret) : M A := fun w => (Returned v, w).

(** `raise e` *)
Definition raise {A} (e : exn) : M A := fun w => (Raised e, w).

(** The value of an expression, or the exception it raises. *)
Definition eval {A} (r : res A) : M A :=
  match r with
  | Ok a => ret a
  | Err e => raise e
  end.

(** Reading a local name that an earlier branch may have left unbound. *)
Definition local {A} (x : option A) : M A :=
  match x with
  | Some a => ret a
  | None => raise UnboundLocalError
  end.

(** `subprocess.Popen(argv, stdin=PIPE, stdout=PIPE, stderr=PIPE, ...)`:
    it raises `FileNotFoundError` when the program is not there. *)
Definition popen (argv : list string) : M unit :=
  fun w =>
    if binary (env w) then emit (Popen argv) w
    else (Raised FileNotFoundError, w).

(** `process.stdin.write(json.dumps(request) + '\n')` *)
Definition stdin_write (request : json) : M unit :=
  fun w =>
    match child w with
    | [] => (Raised BrokenPipeError, w)
    | Refuses :: rest =>
        (Raised BrokenPipeError, mkWorld rest (clock w) (past w) (env w))
    | _ :: _ => emit (Write request) w
    end.

(** `process.stdin.flush()` *)
Definition stdin_flush : M unit := emit Flush.

(** `process.stdout.readline()` *)
Definition stdout_readline : M line :=
  fun w =>
    match child w with
    | [] => (Normal EOF, mkWorld [] (clock w) (Readline EOF :: past w) (env w))
    | Refuses :: rest =>
        (Normal EOF, mkWorld rest (clock w) (Readline EOF :: past w) (env w))
    | Silent :: rest => (Blocked, mkWorld rest (clock w) (past w) (env w))
    | Interrupt :: rest =>
        (Raised KeyboardInterrupt, mkWorld rest (clock w) (past w) (env w))
    | Says l :: rest =>
        (Normal l, mkWorld rest (clock w) (Readline l :: past w) (env w))
    | Garbles :: rest =>
        (Raised UnicodeDecodeError, mkWorld rest (clock w) (past w) (env w))
    end.

(** `print(...)` *)
Definition print (text : string) (args : list arg) : M unit :=
  emit (Print text args).

(** `traceback.print_exc()` *)
Definition print_exc (e : exn) : M unit := emit (PrintExc e).

(** `process.terminate()`: it sends SIGTERM and returns. *)
Definition terminate : M unit := emit Terminate.

(** `process.wait()`, called without a timeout: it returns when the child
    has exited. *)
Definition wait : M unit :=
  fun w =>
    match on_sigterm (env w) with
    | Exits => emit Wait w
    | Lingers => (Blocked, w)
    | LingersUntilInterrupt => (Raised KeyboardInterrupt, w)
    end.

(** `int(time.time())` *)
Definition time_time : M Z := fun w => (Normal (clock w), w).

(** `for x in xs: body` *)
Fixpoint for_each {A} (xs : list A) (body : A -> M unit) : M unit :=
  match xs with
  | [] => ret tt
  | x :: rest => body x ;; for_each rest body
  end.

(** The `finally` block, entered with the outcome that is pending: it
    runs unless control never got there, and the pending outcome stands
    unless the block itself leaves abnormally. *)
Definition finally_ (pending : outcome unit * world) (final : M unit)
  : outcome unit * world :=
  let (o, w) := pending in
  match o with
  | Blocked => (Blocked, w)
  | _ =>
      match final w with
      | (Normal _, w') => (o, w')
      | other => other
      end
  end.

(** `try: body  except Exception as e: handler  finally: final`.
    The handler runs when the body raised an exception derived from
    `Exception`.  The `finally` block runs whenever control leaves the
    statement: on fall-through, on `return`, on an exception (handled or
    not). *)
Definition try_except_finally
    (body : M unit) (handler : exn -> M unit) (final : M unit) : M unit :=
  fun w =>
    let (o, w1) := body w in
    finally_
      match o with
      | Raised e => if is_Exception e then handler e w1 else (o, w1)
      | _ => (o, w1)
      end
      final.

(** `try: body  except: handler` (a bare `except` catches everything). *)
Definition try_except (body : M unit) (handler : M unit) : M unit :=
  fun w =>
    match body w with
    | (Raised _, w1) => handler w1
    | other => other
    end.

(** Calling a function: `return v` yields `v`, falling off the end yields
    `None`, an exception propagates to the caller. *)
Definition call (body : M unit) : M pyret :=
  fun w =>
    match body w with
    | (Normal _, w') => (Normal RNone, w')
    | (Returned v, w') => (Normal v, w')
    | (Raised e, w') => (Raised e, w')
    | (Blocked, w') => (Blocked, w')
    end.

(** The world a script starts in: the child `rs`, the clock, nothing done
    yet, in a given setting and in the usual one. *)
Definition start_in (e : setting) (rs : list reply) (now : Z) : world :=
  mkWorld rs now [] e.

Definition start (rs : list reply) (now : Z) : world := mkWorld rs now [] usual.

End Harness.
Export Harness.

(** ** The scripts

    One module per source file.  Inside, the request dictionaries and the
    function keep the names they have in the source. *)

(** The command line every script spawns. *)
Definition forge_mcp : list string := ["./target/debug/forge"; "--mcp"].

(** The `finally` block every script ends with. *)
Definition shutdown : M unit := terminate ;; wait.

(** How the interpreter ends after running a script's `__main__` block. *)
Inductive status : Type :=
| Exit (code : Z)
| Unhandled (e : exn)
| Never.

(** Falling off the end of the module exits with 0; `sys.exit(n)` raises
    `SystemExit(n)`, which exits with `n`; a `KeyboardInterrupt` that
    reaches the top level ends the interpreter on the signal, with no exit
    code of the script's; any other exception that reaches the top level
    has its traceback printed and exits with 1; a blocked call never
    exits. *)
Definition exit_status {A} (o : outcome A) : status :=
  match o with
  | Normal _ | Returned _ => Exit 0
  | Raised (SystemExit n) => Exit n
  | Raised KeyboardInterrupt => Unhandled KeyboardInterrupt
  | Raised _ => Exit 1
  | Blocked => Never
  end.

(** `sys.exit(n)` *)
Definition sys_exit {A} (n : Z) : M A := raise (SystemExit n).

(** debug_session.py *)
Module DebugSession.

Definition init_request : json :=
  JObj [("jsonrpc", JStr "2.0"); ("id", JInt 1); ("method", JStr "initialize");
        ("params", JObj [])].

Definition session_request : json :=
  JObj [("jsonrpc", JStr "2.0"); ("id", JInt 2); ("method", JStr "session/create");
        ("params", JObj [])].

Definition debug_session : M pyret :=
  call (
    popen forge_mcp ;;
    try_except_finally
      ((* Initialize *)
       stdin_write init_request ;;
       stdin_flush ;;
       init_response <- stdout_readline ;;
       print "Init response: {init_response.strip()}" [AStripped init_response] ;;
       (* Create session *)
       stdin_write session_request ;;
       stdin_flush ;;
       session_response <- stdout_readline ;;
       print "Session response: {session_response.strip()}"
             [AStripped session_response])
      (fun e => print "Error: {e}" [AExn e])
      shutdown).

Definition main : M unit := debug_session ;; ret tt.

End DebugSession.

(** test_complete.py *)
Module TestComplete.

Definition init_request : json :=
  JObj [("jsonrpc", JStr "2.0"); ("id", JInt 1); ("method", JStr "initialize");
        ("params",
         JObj [("protocolVersion", JStr "2024-11-05");
               ("capabilities", JObj []);
               ("clientInfo",
                JObj [("name", JStr "test-client"); ("version", JStr "1.0.0")])])].

Definition session_request : json :=
  JObj [("jsonrpc", JStr "2.0"); ("id", JInt 2); ("method", JStr "session/create");
        ("params",
         JObj [("client_name", JStr "test-client");
               ("client_version", JStr "1.0.0")])].

Definition tool_request : json :=
  JObj [("jsonrpc", JStr "2.0"); ("id", JInt 3); ("method", JStr "tools/call");
        ("params",
         JObj [("name", JStr "list_directory");
               ("arguments", JObj [("path", JStr "."); ("max_depth", JInt 1)])])].

Definition test_complete : M pyret :=
  call (
    popen forge_mcp ;;
    try_except_finally
      ((* 1. Initialize with correct parameters *)
       stdin_write init_request ;;
       stdin_flush ;;
       response_line <- stdout_readline ;;
       init_response <- eval (loads_strip response_line) ;;
       ok <- eval (contains "result" init_response) ;;
       (if ok then print "✓ Initialize: OK" []
        else print "✓ Initialize: ERROR: {init_response}" [AJson init_response]) ;;
       (* 2. Create session with correct parameters *)
       stdin_write session_request ;;
       stdin_flush ;;
       response_line <- stdout_readline ;;
       session_response <- eval (loads_strip response_line) ;;
       created <- eval (contains "result" session_response) ;;
       if created then
         result <- eval (getitem session_response "result") ;;
         session_id <- eval (getitem result "session_id") ;;
         print "✓ Session created: {session_id}" [AJson session_id] ;;
         (* 3. Test tool execution *)
         stdin_write tool_request ;;
         stdin_flush ;;
         response_line <- stdout_readline ;;
         tool_response <- eval (loads_strip response_line) ;;
         succeeded <- eval (contains "result" tool_response) ;;
         if succeeded then
           print "✓ Tool execution successful!" [] ;;
           result <- eval (getitem tool_response "result") ;;
           listed <- eval (contains "files" result) ;;
           if listed then
             files <- eval (getitem result "files") ;;
             n <- eval (len files) ;;
             print "  Found {len(result['files'])} files/directories" [AInt n]
           else ret tt
         else
           print "✗ Tool execution failed: {tool_response}" [AJson tool_response]
       else
         print "✗ Session creation failed: {session_response}" [AJson session_response])
      (fun e => print "Error: {e}" [AExn e] ;; print_exc e)
      shutdown).

Definition main : M unit := test_complete ;; ret tt.

End TestComplete.

(** test_final.py *)
Module TestFinal.

Definition init_request : json :=
  JObj [("jsonrpc", JStr "2.0"); ("id", JInt 1); ("method", JStr "initialize");
        ("params",
         JObj [("protocolVersion", JStr "2024-11-05");
               ("capabilities", JObj []);
               ("clientInfo",
                JObj [("name", JStr "test-client"); ("version", JStr "1.0.0")])])].

Definition session_request (now : Z) : json :=
  JObj [("jsonrpc", JStr "2.0"); ("id", JInt 2); ("method", JStr "session/create");
        ("params",
         JObj [("client_name", JStr "test-client");
               ("client_version", JStr "1.0.0");
               ("user_id", JStr "test-user");
               ("capabilities", JArr [JStr "tools"]);
               ("connection_time", JInt now)])].

Definition tools_request : json :=
  JObj [("jsonrpc", JStr "2.0"); ("id", JInt 3); ("method", JStr "tools/list");
        ("params", JObj [])].

Definition read_request : json :=
  JObj [("jsonrpc", JStr "2.0"); ("id", JInt 4); ("method", JStr "tools/call");
        ("params",
         JObj [("name", JStr "read_file");
               ("arguments",
                JObj [("path", JStr "Cargo.toml"); ("max_size", JInt 1000)])])].

Definition test_mcp : M pyret :=
  call (
    popen forge_mcp ;;
    try_except_finally
      ((* 1. Initialize *)
       stdin_write init_request ;;
       stdin_flush ;;
       response_line <- stdout_readline ;;
       init_response <- eval (loads_strip response_line) ;;
       ok <- eval (contains "result" init_response) ;;
       (if ok then print "✓ Initialize: OK" []
        else print "✓ Initialize: ERROR: {init_response}" [AJson init_response]) ;;
       (* 2. Create session with all required fields *)
       now <- time_time ;;
       stdin_write (session_request now) ;;
       stdin_flush ;;
       response_line <- stdout_readline ;;
       session_response <- eval (loads_strip response_line) ;;
       created <- eval (contains "result" session_response) ;;
       if created then
         result <- eval (getitem session_response "result") ;;
         session_id <- eval (getitem result "session_id") ;;
         print "✓ Session created: {session_id}" [AJson session_id] ;;
         (* 3. List tools *)
         stdin_write tools_request ;;
         stdin_flush ;;
         response_line <- stdout_readline ;;
         tools_response <- eval (loads_strip response_line) ;;
         listed <- eval (contains "result" tools_response) ;;
         if listed then
           result <- eval (getitem tools_response "result") ;;
           tools <- eval (getitem result "tools") ;;
           n <- eval (len tools) ;;
           print "✓ Listed {len(tools)} tools" [AInt n] ;;
           (* 4. Test read_file tool (should work without session) *)
           stdin_write read_request ;;
           stdin_flush ;;
           response_line <- stdout_readline ;;
           read_response <- eval (loads_strip response_line) ;;
           succeeded <- eval (contains "result" read_response) ;;
           if succeeded then
             print "✓ File read successful!" [] ;;
             result <- eval (getitem read_response "result") ;;
             content <- eval (get result "content" (JStr "")) ;;
             n <- eval (len content) ;;
             print "  Read {len(read_response['result'].get('content', ''))} characters"
                   [AInt n]
           else
             print "✗ File read failed: {read_response}" [AJson read_response]
         else
           print "✗ Tools list failed: {tools_response}" [AJson tools_response]
       else
         print "✗ Session creation failed: {session_response}" [AJson session_response])
      (fun e => print "Error: {e}" [AExn e] ;; print_exc e)
      shutdown).

Definition main : M unit := test_mcp ;; ret tt.

End TestFinal.

(** test_mcp.py *)
Module TestMcp.

Definition init_request : json :=
  JObj [("jsonrpc", JStr "2.0"); ("id", JInt 1); ("method", JStr "initialize");
        ("params",
         JObj [("protocolVersion", JStr "2024-11-05");
               ("capabilities", JObj []);
               ("clientInfo",
                JObj [("name", JStr "test-client"); ("version", JStr "1.0.0")])])].

Definition tools_request : json :=
  JObj [("jsonrpc", JStr "2.0"); ("id", JInt 2); ("method", JStr "tools/list");
        ("params", JObj [])].

Definition test_mcp_server : M pyret :=
  call (
    (* Start the MCP server process *)
    popen forge_mcp ;;
    try_except_finally
      ((* Test 1: Initialize request *)
       print "Sending initialize request..." [] ;;
       stdin_write init_request ;;
       stdin_flush ;;
       (* Read response *)
       response_line <- stdout_readline ;;
       (if truthy response_line then
          response <- eval (loads_strip response_line) ;;
          print "Initialize response: {json.dumps(response, indent=2)}" [AJson response]
        else
          print "No response received" []) ;;
       (* Test 2: List tools request *)
       print "\nSending tools/list request..." [] ;;
       stdin_write tools_request ;;
       stdin_flush ;;
       (* Read response *)
       response_line <- stdout_readline ;;
       if truthy response_line then
         response <- eval (loads_strip response_line) ;;
         print "Tools list response: {json.dumps(response, indent=2)}" [AJson response]
       else
         print "No response received" [])
      (fun e => print "Error: {e}" [AExn e])
      shutdown).

Definition main : M unit := test_mcp_server ;; ret tt.

End TestMcp.

(** test_simple.py *)
Module TestSimple.

Definition init_request : json :=
  JObj [("jsonrpc", JStr "2.0"); ("id", JInt 1); ("method", JStr "initialize");
        ("params",
         JObj [("protocolVersion", JStr "2024-11-05");
               ("capabilities", JObj []);
               ("clientInfo",
                JObj [("name", JStr "test-client"); ("version", JStr "1.0.0")])])].

Definition tools_request : json :=
  JObj [("jsonrpc", JStr "2.0"); ("id", JInt 2); ("method", JStr "tools/list");
        ("params", JObj [])].

(** The three lines that close the `try` block. *)
Definition summary_working : string := "\n🎉 Basic MCP functionality working!".
Definition summary_available : string :=
  "📋 Available tools: {len(tools)} filesystem tools".
Definition summary_ready : string :=
  "🔗 Ready for Claude Code integration via stdio transport".

(** `print(f'     - {tool['name']}: {tool['description']}')` *)
Definition print_tool (tool : json) : M unit :=
  name <- eval (getitem tool "name") ;;
  description <- eval (getitem tool "description") ;;
  print "     - {tool['name']}: {tool['description']}" [AJson name; AJson description].

(** The name `tools` is bound only in the first branch of the second
    `if`; it is `None` here while it is unbound there. *)
Definition test_basic_functionality : M pyret :=
  call (
    popen forge_mcp ;;
    print "🧪 Testing Forge MCP Server\n" [] ;;
    try_except_finally
      ((* Test 1: Initialize *)
       print "1. Testing initialization..." [] ;;
       stdin_write init_request ;;
       stdin_flush ;;
       response_line <- stdout_readline ;;
       response <- eval (loads_strip response_line) ;;
       ok <- eval (contains "result" response) ;;
       (if ok then
          result <- eval (getitem response "result") ;;
          server_info <- eval (getitem result "serverInfo") ;;
          name <- eval (getitem server_info "name") ;;
          version <- eval (getitem server_info "version") ;;
          print "   ✓ Server: {server_info['name']} v{server_info['version']}"
                [AJson name; AJson version] ;;
          result <- eval (getitem response "result") ;;
          protocol <- eval (getitem result "protocolVersion") ;;
          print "   ✓ Protocol: {response['result']['protocolVersion']}" [AJson protocol]
        else
          print "   ✗ Failed: {response}" [AJson response] ;;
          return_ RNone) ;;
       (* Test 2: List tools *)
       print "\n2. Testing tools list..." [] ;;
       stdin_write tools_request ;;
       stdin_flush ;;
       response_line <- stdout_readline ;;
       response <- eval (loads_strip response_line) ;;
       listed <- eval (contains "result" response) ;;
       tools <- (if listed then
                   result <- eval (getitem response "result") ;;
                   tools <- eval (getitem result "tools") ;;
                   n <- eval (len tools) ;;
                   print "   ✓ Found {len(tools)} tools:" [AInt n] ;;
                   items <- eval (iter tools) ;;
                   for_each items print_tool ;;
                   ret (Some tools)
                 else
                   print "   ✗ Failed: {response}" [AJson response] ;;
                   ret None) ;;
       print summary_working [] ;;
       tools <- local tools ;;
       n <- eval (len tools) ;;
       print summary_available [AInt n] ;;
       print summary_ready [])
      (fun e => print "❌ Error: {e}" [AExn e] ;; print_exc e)
      shutdown).

Definition main : M unit := test_basic_functionality ;; ret tt.

End TestSimple.

(** test_tool_execution.py *)
Module TestToolExecution.

Definition init_request : json :=
  JObj [("jsonrpc", JStr "2.0"); ("id", JInt 1); ("method", JStr "initialize");
        ("params", JObj [])].

Definition session_request : json :=
  JObj [("jsonrpc", JStr "2.0"); ("id", JInt 2); ("method", JStr "session/create");
        ("params",
         JObj [("client_name", JStr "test-client");
               ("client_version", JStr "1.0.0")])].

Definition tool_request : json :=
  JObj [("jsonrpc", JStr "2.0"); ("id", JInt 3); ("method", JStr "tools/call");
        ("params",
         JObj [("name", JStr "list_directory");
               ("arguments", JObj [("path", JStr "."); ("max_depth", JInt 1)])])].

Definition test_tool_execution : M pyret :=
  call (
    popen forge_mcp ;;
    try_except_finally
      ((* Initialize first *)
       stdin_write init_request ;;
       stdin_flush ;;
       init_response <- stdout_readline ;;
       print "✓ Initialized" [] ;;
       (* Create session *)
       stdin_write session_request ;;
       stdin_flush ;;
       response_line <- stdout_readline ;;
       session_response <- eval (loads_strip response_line) ;;
       result <- eval (getitem session_response "result") ;;
       session_id <- eval (getitem result "session_id") ;;
       print "✓ Created session: {session_id}" [AJson session_id] ;;
       (* Test list_directory tool *)
       stdin_write tool_request ;;
       stdin_flush ;;
       response_line <- stdout_readline ;;
       tool_response <- eval (loads_strip response_line) ;;
       succeeded <- eval (contains "result" tool_response) ;;
       if succeeded then
         print "✓ Tool execution successful!" [] ;;
         result <- eval (getitem tool_response "result") ;;
         files <- eval (get result "files" (JArr [])) ;;
         n <- eval (len files) ;;
         print "Directory contents: {len(tool_response['result'].get('files', []))} items"
               [AInt n]
       else
         print "✗ Tool execution failed: {tool_response}" [AJson tool_response])
      (fun e => print "Error: {e}" [AExn e])
      shutdown).

Definition main : M unit := test_tool_execution ;; ret tt.

End TestToolExecution.

(** test_permissions.py *)
Module TestPermissions.

Definition init_request : json :=
  JObj [("jsonrpc", JStr "2.0"); ("id", JInt 1); ("method", JStr "initialize");
        ("params",
         JObj [("protocolVersion", JStr "2024-11-05");
               ("capabilities", JObj []);
               ("clientInfo",
                JObj [("name", JStr "permission-test-client");
                      ("version", JStr "1.0.0")])])].

Definition tools_request : json :=
  JObj [("jsonrpc", JStr "2.0"); ("id", JInt 2); ("method", JStr "tools/list");
        ("params", JObj [])].

Definition create_block_request : json :=
  JObj [("jsonrpc", JStr "2.0"); ("id", JInt 3); ("method", JStr "tools/call");
        ("params",
         JObj [("name", JStr "create_block");
               ("arguments",
                JObj [("name", JStr "Test Permission Block");
                      ("description",
                       JStr "Testing if block creation works with current permissions")])])].

Definition list_blocks_request : json :=
  JObj [("jsonrpc", JStr "2.0"); ("id", JInt 4); ("method", JStr "tools/call");
        ("params", JObj [("name", JStr "list_blocks"); ("arguments", JObj [])])].

(** The lines that report the outcome of the two permission checks. *)
Definition permission_working : string :=
  "   ✅ Permission system is working - correctly blocking unauthorized access".
Definition permission_unexpected : string :=
  "   ❌ Unexpected error (not permission-related): {response['error']['message']}".
Definition permission_too_permissive : string :=
  "   ❌ Block creation succeeded - permissions may be too permissive!".
Definition list_blocks_succeeded : string :=
  "   ✅ List blocks succeeded - read permission is working".
Definition list_blocks_error : string :=
  "   Error: {response['error']['message']}".

(** `print(f'   - {tool['name']}: {tool['description']}')` *)
Definition print_tool (tool : json) : M unit :=
  name <- eval (getitem tool "name") ;;
  description <- eval (getitem tool "description") ;;
  print "   - {tool['name']}: {tool['description']}" [AJson name; AJson description].

Section Decoder.

(** `json.loads` on a text found inside a response.  It belongs to
    Python's standard library, not to the repository: the script is
    embedded for an arbitrary decoder. *)
Variable json_loads : string -> option json.

(** `json.loads(x)`: a value that is not a str is a `TypeError`. *)
Definition loads (x : json) : res json :=
  match x with
  | JStr s =>
      match json_loads s with
      | Some v => Ok v
      | None => Err JSONDecodeError
      end
  | _ => Err TypeError
  end.

(** The body of the `try` statement is four tests in a row, each under
    its own comment in the source; each test assigns the names
    `response_line` and `response` before it reads them. *)

(** `# Test 1: Initialize request` *)
Definition test1_initialize : M unit :=
  print "1. Sending initialize request..." [] ;;
  stdin_write init_request ;;
  stdin_flush ;;
  response_line <- stdout_readline ;;
  if truthy response_line then
    response <- eval (loads_strip response_line) ;;
    result <- eval (get response "result" (JObj [])) ;;
    server_info <- eval (get result "server_info" (JObj [])) ;;
    print "   Initialize response: {response.get('result', {}).get('server_info', {})}"
          [AJson server_info]
  else
    print "   No response received" [] ;;
    return_ (RBool false).

(** `# Test 2: List tools request to see available tools` *)
Definition test2_list_tools : M unit :=
  print "\n2. Checking available tools..." [] ;;
  stdin_write tools_request ;;
  stdin_flush ;;
  response_line <- stdout_readline ;;
  if truthy response_line then
    response <- eval (loads_strip response_line) ;;
    result <- eval (get response "result" (JObj [])) ;;
    tools <- eval (get result "tools" (JArr [])) ;;
    n <- eval (len tools) ;;
    print "   Available tools: {len(tools)}" [AInt n] ;;
    items <- eval (iter tools) ;;
    for_each items print_tool
  else
    print "   No response received" [] ;;
    return_ (RBool false).

(** `# Test 3: Try to create a block (should fail due to permissions)` *)
Definition test3_create_block : M unit :=
  print "\n3. Testing create_block tool (should fail with permission error)..." [] ;;
  stdin_write create_block_request ;;
  stdin_flush ;;
  response_line <- stdout_readline ;;
  if truthy response_line then
    response <- eval (loads_strip response_line) ;;
    failed <- eval (contains "error" response) ;;
    if failed then
      error <- eval (getitem response "error") ;;
      message <- eval (getitem error "message") ;;
      print "   Expected permission error: {response['error']['message']}"
            [AJson message] ;;
      error <- eval (getitem response "error") ;;
      message <- eval (getitem error "message") ;;
      lowered <- eval (lower message) ;;
      if infix "permission" lowered then
        print permission_working []
      else
        error <- eval (getitem response "error") ;;
        message <- eval (getitem error "message") ;;
        print permission_unexpected [AJson message]
    else
      succeeded <- eval (contains "result" response) ;;
      if succeeded then
        print permission_too_permissive [] ;;
        result <- eval (getitem response "result") ;;
        print "   Result: {response['result']}" [AJson result]
      else ret tt
  else
    print "   No response received" [].

(** `# Test 4: Try to list blocks (should work with read permission)` *)
Definition test4_list_blocks : M unit :=
  print "\n4. Testing list_blocks tool (should work with read permission)..." [] ;;
  stdin_write list_blocks_request ;;
  stdin_flush ;;
  response_line <- stdout_readline ;;
  if truthy response_line then
    response <- eval (loads_strip response_line) ;;
    failed <- eval (contains "error" response) ;;
    if failed then
      error <- eval (getitem response "error") ;;
      message <- eval (getitem error "message") ;;
      print list_blocks_error [AJson message]
    else
      succeeded <- eval (contains "result" response) ;;
      if succeeded then
        print list_blocks_succeeded [] ;;
        (* Try to parse the result to see block count *)
        try_except
          (result <- eval (getitem response "result") ;;
           content <- eval (getitem result "content") ;;
           first <- eval (getitem0 content) ;;
           text <- eval (getitem first "text") ;;
           result_data <- eval (loads text) ;;
           n <- eval (len result_data) ;;
           print "   Found {len(result_data)} blocks" [AInt n])
          (print "   Block list retrieved successfully" [])
      else ret tt
  else
    print "   No response received" [].

Definition test_mcp_permissions : M pyret :=
  call (
    (* Start the MCP server process *)
    popen forge_mcp ;;
    try_except_finally
      (test1_initialize ;;
       test2_list_tools ;;
       test3_create_block ;;
       test4_list_blocks)
      (fun e => print "Error during testing: {e}" [AExn e] ;; return_ (RBool false))
      shutdown ;;
    return_ (RBool true)).

(** The `__main__` block: `if success:` is taken for `True` only, since
    the function returns `True` or `False`. *)
Definition main : M unit :=
  print "MCP Server Permission Test" [] ;;
  print "==================================================" [] ;;
  success <- test_mcp_permissions ;;
  match success with
  | RBool true => print "\n✅ Permission test completed" []
  | _ => print "\n❌ Permission test failed" [] ;; sys_exit 1
  end.

End Decoder.

End TestPermissions.

(** ** All seven scripts at once *)

Inductive script : Type :=
| debug_session_py
| test_complete_py
| test_final_py
| test_mcp_py
| test_permissions_py
| test_simple_py
| test_tool_execution_py.

Section Run.

Variable json_loads : string -> option json.

(** The function each file defines. *)
Definition function (s : script) : M pyret :=
  match s with
  | debug_session_py => DebugSession.debug_session
  | test_complete_py => TestComplete.test_complete
  | test_final_py => TestFinal.test_mcp
  | test_mcp_py => TestMcp.test_mcp_server
  | test_permissions_py => TestPermissions.test_mcp_permissions json_loads
  | test_simple_py => TestSimple.test_basic_functionality
  | test_tool_execution_py => TestToolExecution.test_tool_execution
  end.

(** The `__main__` block of each file. *)
Definition main (s : script) : M unit :=
  match s with
  | debug_session_py => DebugSession.main
  | test_complete_py => TestComplete.main
  | test_final_py => TestFinal.main
  | test_mcp_py => TestMcp.main
  | test_permissions_py => TestPermissions.main json_loads
  | test_simple_py => TestSimple.main
  | test_tool_execution_py => TestToolExecution.main
  end.

(** Running `python3 <script>` against a child that behaves as `rs`. *)
Definition run (s : script) (rs : list reply) (now : Z) : outcome unit * world :=
  main s (start rs now).

Definition exit_code (s : script) (rs : list reply) (now : Z) : status :=
  exit_status (fst (run s rs now)).

(** The same in a given setting. *)
Definition run_in (e : setting) (s : script) (rs : list reply) (now : Z)
  : outcome unit * world :=
  main s (start_in e rs now).

Definition exit_code_in (e : setting) (s : script) (rs : list reply) (now : Z)
  : status :=
  exit_status (fst (run_in e s rs now)).

End Run.

(** ** A decoder to run the scripts with

    The development holds for any decoder.  To run a script on a concrete
    conversation one is needed: this one reads the JSON grammar, without
    `\u` escapes in strings.  It stands for `json.loads` in the examples. *)

Module Decoder.

Definition code (a : ascii) : nat := nat_of_ascii a.

Definition is_ws (a : ascii) : bool :=
  match code a with
  | 32 | 9 | 10 | 13 => true
  | _ => false
  end%nat.

Definition is_digit (a : ascii) : bool :=
  ((48 <=? code a) && (code a <=? 57))%nat.

Fixpoint skip_ws (cs : list ascii) : list ascii :=
  match cs with
  | a :: rest => if is_ws a then skip_ws rest else cs
  | [] => []
  end.

Fixpoint digits (cs : list ascii) : list ascii * list ascii :=
  match cs with
  | a :: rest =>
      if is_digit a then let (ds, r) := digits rest in (a :: ds, r) else ([], cs)
  | [] => ([], [])
  end.

Definition value_of_digits (ds : list ascii) : Z :=
  fold_left (fun acc d => acc * 10 + (Z.of_nat (code d) - 48))%Z ds 0%Z.

(** `frac` and `exp` of the number grammar: the characters taken, which
    are empty when the part is absent, or `None` when it is malformed. *)
Definition fraction (cs : list ascii) : option (list ascii * list ascii) :=
  match cs with
  | "."%char :: rest =>
      match digits rest with
      | ([], _) => None
      | (ds, r) => Some ("."%char :: ds, r)
      end
  | _ => Some ([], cs)
  end.

Definition exponent (cs : list ascii) : option (list ascii * list ascii) :=
  let signed (e : ascii) (sign : list ascii) (rest : list ascii) :=
    match digits rest with
    | ([], _) => None
    | (ds, r) => Some (e :: sign ++ ds, r)
    end in
  match cs with
  | e :: rest =>
      if (code e =? 101)%nat || (code e =? 69)%nat then
        match rest with
        | "+"%char :: rest' => signed e ["+"%char] rest'
        | "-"%char :: rest' => signed e ["-"%char] rest'
        | _ => signed e [] rest
        end
      else Some ([], cs)
  | [] => Some ([], cs)
  end.

Definition number (cs : list ascii) : option (json * list ascii) :=
  let (sign, cs1) :=
    match cs with
    | "-"%char :: rest => (["-"%char], rest)
    | _ => ([], cs)
    end in
  match digits cs1 with
  | ([], _) => None
  | ("0"%char :: _ :: _, _) => None
  | (ds, cs2) =>
      match fraction cs2 with
      | None => None
      | Some (fr, cs3) =>
          match exponent cs3 with
          | None => None
          | Some (ex, cs4) =>
              match fr, ex with
              | [], [] =>
                  let n := value_of_digits ds in
                  Some (JInt (match sign with [] => n | _ => - n end)%Z, cs4)
              | _, _ =>
                  Some (JFloat (string_of_list_ascii (sign ++ ds ++ fr ++ ex)), cs4)
              end
          end
      end
  end.

Definition unescape (a : ascii) : option ascii :=
  match code a with
  | 34 => Some a
  | 92 => Some a
  | 47 => Some a
  | 98 => Some (ascii_of_nat 8)
  | 102 => Some (ascii_of_nat 12)
  | 110 => Some (ascii_of_nat 10)
  | 114 => Some (ascii_of_nat 13)
  | 116 => Some (ascii_of_nat 9)
  | _ => None
  end%nat.

(** The characters up to the closing quote. *)
Fixpoint characters (cs : list ascii) (acc : list ascii)
  : option (string * list ascii) :=
  match cs with
  | [] => None
  | a :: rest =>
      if (code a =? 34)%nat then Some (string_of_list_ascii (rev acc), rest)
      else if (code a =? 92)%nat then
        match rest with
        | b :: rest' =>
            match unescape b with
            | Some c => characters rest' (c :: acc)
            | None => None
            end
        | [] => None
        end
      else if (code a <? 32)%nat then None
      else characters rest (a :: acc)
  end.

(** A dict keeps one binding per key: a repeated key takes the place of
    the earlier one with the later value. *)
Fixpoint put (k : string) (v : json) (kvs : list (string * json))
  : list (string * json) :=
  match kvs with
  | [] => [(k, v)]
  | (k', v') :: rest =>
      if String.eqb k k' then (k, v) :: rest else (k', v') :: put k v rest
  end.

Fixpoint value (fuel : nat) (cs : list ascii) : option (json * list ascii) :=
  match fuel with
  | O => None
  | S fuel =>
      match skip_ws cs with
      | "n"%char :: "u"%char :: "l"%char :: "l"%char :: rest => Some (JNull, rest)
      | "t"%char :: "r"%char :: "u"%char :: "e"%char :: rest => Some (JBool true, rest)
      | "f"%char :: "a"%char :: "l"%char :: "s"%char :: "e"%char :: rest =>
          Some (JBool false, rest)
      | "["%char :: rest =>
          match skip_ws rest with
          | "]"%char :: rest' => Some (JArr [], rest')
          | _ => elements fuel rest []
          end
      | "{"%char :: rest =>
          match skip_ws rest with
          | "}"%char :: rest' => Some (JObj [], rest')
          | _ => members fuel rest []
          end
      | a :: rest =>
          if (code a =? 34)%nat then
            match characters rest [] with
            | Some (s, rest') => Some (JStr s, rest')
            | None => None
            end
          else number (a :: rest)
      | [] => None
      end
  end
with elements (fuel : nat) (cs : list ascii) (acc : list json)
  : option (json * list ascii) :=
  match fuel with
  | O => None
  | S fuel =>
      match value fuel cs with
      | Some (v, rest) =>
          match skip_ws rest with
          | ","%char :: rest' => elements fuel rest' (v :: acc)
          | "]"%char :: rest' => Some (JArr (rev (v :: acc)), rest')
          | _ => None
          end
      | None => None
      end
  end
with members (fuel : nat) (cs : list ascii) (acc : list (string * json))
  : option (json * list ascii) :=
  match fuel with
  | O => None
  | S fuel =>
      match skip_ws cs with
      | q :: rest =>
          if (code q =? 34)%nat then
            match characters rest [] with
            | Some (k, rest1) =>
                match skip_ws rest1 with
                | ":"%char :: rest2 =>
                    match value fuel rest2 with
                    | Some (v, rest3) =>
                        match skip_ws rest3 with
                        | ","%char :: rest4 => members fuel rest4 (put k v acc)
                        | "}"%char :: rest4 => Some (JObj (put k v acc), rest4)
                        | _ => None
                        end
                    | None => None
                    end
                | _ => None
                end
            | None => None
            end
          else None
      | [] => None
      end
  end.

(** One document, with nothing but white space after it. *)
Definition decode (s : string) : option json :=
  let cs := list_ascii_of_string s in
  match value (2 * length cs + 2) cs with
  | Some (v, rest) => match skip_ws rest with [] => Some v | _ => None end
  | None => None
  end.

End Decoder.


(** ** Conversations to run the scripts on *)

(** A line that decodes to a JSON-RPC response with a result, and one
    with an error. *)
Definition answer (id : Z) (result : json) : reply :=
  Says (Encodes (JObj [("jsonrpc", JStr "2.0"); ("id", JInt id); ("result", result)])).

Definition failure (id : Z) (code : Z) (message : string) : reply :=
  Says (Encodes (JObj [("jsonrpc", JStr "2.0"); ("id", JInt id);
                       ("error", JObj [("code", JInt code);
                                       ("message", JStr message)])])).

(** What `initialize` answers, per the method table. *)
Definition initialized : json :=
  JObj [("protocolVersion", JStr "2024-11-05");
        ("serverInfo", JObj [("name", JStr "forge"); ("version", JStr "0.1.0")]);
        ("capabilities", JObj [])].

(** A server that answers every request of `test_complete.py` with the
    id 7. *)
Definition always_id_7 : list reply :=
  [answer 7 initialized;
   answer 7 (JObj [("session_id", JStr "s-1")]);
   answer 7 (JObj [("files", JArr [])])].

(** A server that enforces permissions: it lists one tool, denies
    `create_block`, and answers `list_blocks` with two blocks. *)
Definition healthy : list reply :=
  [answer 1 initialized;
   answer 2 (JObj [("tools",
                    JArr [JObj [("name", JStr "list_blocks");
                                ("description", JStr "List all blocks")]])]);
   failure 3 (-32001) "Permission denied: write access required";
   answer 4 (JObj [("content",
                    JArr [JObj [("type", JStr "text"); ("text", JStr "[{}, {}]")]])])].

(** A server that closes its output without answering and keeps reading
    its input. *)
Definition closes_its_output : list reply := [Says EOF; Says EOF].

(** A server that lets `create_block` through. *)
Definition too_permissive : list reply :=
  [answer 1 initialized;
   answer 2 (JObj [("tools", JArr [])]);
   answer 3 (JObj [("id", JStr "block-1")]);
   answer 4 (JObj [])].

(** A response to `list_blocks` that carries a result and an error. *)
Definition result_and_error : list (string * json) :=
  [("jsonrpc", JStr "2.0"); ("id", JInt 4);
   ("result", JObj [("content", JArr [])]);
   ("error", JObj [("code", JInt (-32000)); ("message", JStr "index is stale")])].

(** A server that denies `create_block` and answers `list_blocks` with a
    result and an error. *)
Definition denies_then_both : list reply :=
  [answer 1 initialized;
   answer 2 (JObj [("tools", JArr [])]);
   failure 3 (-32001) "Permission denied";
   Says (Encodes (JObj result_and_error))].

(** A server that refuses to create a session; it would answer the tool
    call. *)
Definition no_session : list reply :=
  [answer 1 initialized;
   failure 2 (-32602) "missing field user_id";
   answer 3 (JObj [("files", JArr [])])].

(** A server that does not know `tools/list`. *)
Definition no_tools_list : list reply :=
  [answer 1 initialized; failure 2 (-32601) "method not found"].

(** Settings other than the usual one: the program is not there; the
    child lives on after SIGTERM until the user interrupts the script; the
    child lives on for good. *)
Definition no_binary : setting := mkSetting false Exits.
Definition stubborn_child : setting := mkSetting true LingersUntilInterrupt.
Definition immortal_child : setting := mkSetting true Lingers.

(** A server that answers `initialize`, after which the user interrupts
    the script. *)
Definition interrupted : list reply := [answer 1 initialized; Interrupt].

(** ** What is read off a log *)

(** The requests written to the child, in order. *)
Fixpoint writes (l : list event) : list json :=
  match l with
  | [] => []
  | Write request :: rest => request :: writes rest
  | _ :: rest => writes rest
  end.

(** `request['id']`, `request['method']` and `request['params']` of a
    request dictionary. *)
Definition id_of (request : json) : option json :=
  match request with JObj kvs => assoc "id" kvs | _ => None end.
Definition method_of (request : json) : option json :=
  match request with JObj kvs => assoc "method" kvs | _ => None end.
Definition params_of (request : json) : option json :=
  match request with JObj kvs => assoc "params" kvs | _ => None end.

Definition ids (l : list event) : list (option json) := map id_of (writes l).
Definition methods (l : list event) : list (option json) := map method_of (writes l).

(** The ids `1, 2, ..., n`. *)
Definition first_ids (n : nat) : list (option json) :=
  map (fun i => Some (JInt (Z.of_nat i))) (seq 1 n).

(** The texts of the `print` calls, in order, as they are written in the
    source, the holes unfilled, and whether a given text is among them.
    Two runs with the same `printed` ran the same `print` statements; the
    lines they printed are the same when the values of the holes are, see
    `lines`. *)
Fixpoint printed (l : list event) : list string :=
  match l with
  | [] => []
  | Print text _ :: rest => text :: printed rest
  | _ :: rest => printed rest
  end.

Definition says (text : string) (l : list event) : bool :=
  existsb (String.eqb text) (printed l).

(** Writes and reads take turns, starting with a write: `awaiting` tells
    whether a request has been written and `readline()` not yet called. *)
Fixpoint alternating (awaiting : bool) (l : list event) : bool :=
  match l with
  | [] => true
  | Write _ :: rest => negb awaiting && alternating true rest
  | Readline _ :: rest => awaiting && alternating false rest
  | _ :: rest => alternating awaiting rest
  end.

(** The log ends with `process.terminate()` and `process.wait()`. *)
Fixpoint ends_with_shutdown (l : list event) : bool :=
  match l with
  | [] => false
  | [Terminate; Wait] => true
  | _ :: rest => ends_with_shutdown rest
  end.

Definition is_terminate (e : event) : bool :=
  match e with Terminate => true | _ => false end.

Definition terminated (l : list event) : bool := existsb is_terminate l.

Definition blocked {A} (o : outcome A) : bool :=
  match o with Blocked => true | _ => false end.

Definition silent (r : reply) : bool :=
  match r with Silent => true | _ => false end.

(** *** Requests *)

(** A request whose method is `initialize`. *)
Definition is_initialize (request : json) : bool :=
  match method_of request with
  | Some (JStr m) => String.eqb m "initialize"
  | _ => false
  end.

(** The parameters the method table requires of `initialize`:
    `protocolVersion`, `capabilities`, `clientInfo:{name,version}`. *)
Definition has_required_params (request : json) : bool :=
  match params_of request with
  | Some (JObj ps) =>
      has_key "protocolVersion" ps && has_key "capabilities" ps &&
      match assoc "clientInfo" ps with
      | Some (JObj info) => has_key "name" info && has_key "version" info
      | _ => false
      end
  | _ => false
  end.

(** The two scripts whose `initialize` request has `"params": {}`. *)
Definition sends_empty_params (s : script) : bool :=
  match s with
  | debug_session_py | test_tool_execution_py => true
  | _ => false
  end.

(** The three scripts that go on to their second request when the first
    read returns the empty string at end of stream: two do not decode the
    first line, one tests it for emptiness. *)
Definition goes_on_after_empty_read (s : script) : bool :=
  match s with
  | debug_session_py | test_mcp_py | test_tool_execution_py => true
  | _ => false
  end.

(** The one script whose function returns a boolean. *)
Definition returns_bool (s : script) : bool :=
  match s with test_permissions_py => true | _ => false end.

(** The largest number of requests that were written and not yet answered
    by a line: a write adds one, a read that returns a line takes one off,
    a read that returns the empty string at end of stream takes none. *)
Fixpoint peak_in_flight (current : nat) (l : list event) : nat :=
  match l with
  | [] => current
  | Write _ :: rest => Nat.max (S current) (peak_in_flight (S current) rest)
  | Readline EOF :: rest => peak_in_flight current rest
  | Readline _ :: rest => peak_in_flight (pred current) rest
  | _ :: rest => peak_in_flight current rest
  end.

(** *** Responses *)

(** The ids of the responses read, in order. *)
Fixpoint response_ids (l : list event) : list (option json) :=
  match l with
  | [] => []
  | Readline (Encodes j) :: rest => id_of j :: response_ids rest
  | _ :: rest => response_ids rest
  end.

(** A response with its id replaced: `f` gives the new id from the old. *)
Definition with_id (f : json -> json) (j : json) : json :=
  match j with
  | JObj kvs =>
      JObj (map (fun kv => if String.eqb (fst kv) "id" then (fst kv, f (snd kv)) else kv)
              kvs)
  | _ => j
  end.

(** A line and a reply with the id of its response replaced. *)
Definition relabel_line (f : json -> json) (l : line) : line :=
  match l with
  | Encodes j => Encodes (with_id f j)
  | _ => l
  end.

Definition relabel (f : json -> json) (r : reply) : reply :=
  match r with
  | Says l => Says (relabel_line f l)
  | _ => r
  end.

(** A response as the data model has it: exactly one of `result` and
    `error` is present. *)
Definition well_formed (kvs : list (string * json)) : bool :=
  xorb (has_key "result" kvs) (has_key "error" kvs).

(** A response reports a denial for lack of permission: it has an `error`
    that is an object whose `message` is a string in which `permission`
    occurs, in any case of the letters. *)
Definition denied_for_permission (kvs : list (string * json)) : bool :=
  match assoc "error" kvs with
  | Some (JObj error) =>
      match assoc "message" error with
      | Some (JStr message) => infix "permission" (lower_string message)
      | _ => false
      end
  | _ => false
  end.

(** *** Printed lines *)

(** The lines a script prints for the steps that come after
    `session/create`, the line that announces the session included. *)
Definition lines_after_session (s : script) : list string :=
  match s with
  | test_complete_py =>
      ["✓ Session created: {session_id}";
       "✓ Tool execution successful!";
       "  Found {len(result['files'])} files/directories";
       "✗ Tool execution failed: {tool_response}"]
  | test_final_py =>
      ["✓ Session created: {session_id}";
       "✓ Listed {len(tools)} tools";
       "✗ Tools list failed: {tools_response}";
       "✓ File read successful!";
       "  Read {len(read_response['result'].get('content', ''))} characters";
       "✗ File read failed: {read_response}"]
  | test_tool_execution_py =>
      ["✓ Created session: {session_id}";
       "✓ Tool execution successful!";
       "Directory contents: {len(tool_response['result'].get('files', []))} items";
       "✗ Tool execution failed: {tool_response}"]
  | _ => []
  end.

(** Whether a printed line mentions skipping. *)
Definition mentions_skip (l : list event) : bool :=
  existsb (fun text => infix "skip" (lower_string text)) (printed l).

(** The traceback of a `NameError`, as the handler prints it. *)
Definition is_name_error_traceback (e : event) : bool :=
  match e with PrintExc x => is_NameError x | _ => false end.

(** The world in which a script's `__main__` block calls its function:
    `test_permissions.py` has printed its two banner lines by then. *)
Definition at_call (e : setting) (s : script) (rs : list reply) (now : Z) : world :=
  match s with
  | test_permissions_py =>
      mkWorld rs now
        [Print "==================================================" [];
         Print "MCP Server Permission Test" []]
        e
  | _ => start_in e rs now
  end.

(** *** What the proofs speak of *)

(** The lines `for tool in tools: print(...)` prints, and the exception
    that stops it, if any. *)
Fixpoint tool_lines (text : string) (xs : list json) : list event :=
  match xs with
  | [] => []
  | x :: rest =>
      match getitem x "name", getitem x "description" with
      | Ok name, Ok description =>
          Print text [AJson name; AJson description] :: tool_lines text rest
      | _, _ => []
      end
  end.

Fixpoint tool_stop (xs : list json) : option exn :=
  match xs with
  | [] => None
  | x :: rest =>
      match getitem x "name", getitem x "description" with
      | Ok _, Ok _ => tool_stop rest
      | Err e, _ => Some e
      | _, Err e => Some e
      end
  end.

Definition loop_outcome (xs : list json) : outcome unit :=
  match tool_stop xs with
  | None => Normal tt
  | Some e => Raised e
  end.

(** The operations on documents raise nothing but exceptions derived from
    `Exception`. *)
Definition safe {A} (r : res A) : Prop :=
  match r with
  | Ok _ => True
  | Err e => is_Exception e = true
  end.

(** How the call of a script's function can end, from any world: only
    `test_mcp_permissions` returns a boolean, the others return `None`;
    the only exceptions that leave the function are `KeyboardInterrupt`,
    and `FileNotFoundError` where the program is not there. *)
Definition outcome_shape (s : script) (e : setting) (o : outcome pyret) : Prop :=
  match o with
  | Normal RNone => returns_bool s = false
  | Normal (RBool _) => returns_bool s = true
  | Raised x =>
      x = KeyboardInterrupt \/ (x = FileNotFoundError /\ binary e = false)
  | Returned _ => False
  | Blocked => True
  end.

(** The lines printed, each with the values of its holes. *)
Fixpoint lines (l : list event) : list (string * list arg) :=
  match l with
  | [] => []
  | Print text args :: rest => (text, args) :: lines rest
  | _ :: rest => lines rest
  end.

(** A value shown in a line, with the id of the response it shows
    replaced. *)
Definition relabel_arg (f : json -> json) (a : arg) : arg :=
  match a with
  | AJson j => AJson (with_id f j)
  | AStripped l => AStripped (relabel_line f l)
  | _ => a
  end.

(** Two values shown are alike when the second is the first, or the first
    with the id of the response replaced; two lines are alike when they
    come from the same `print` and show values that are alike. *)
Definition arg_alike (f : json -> json) (a1 a2 : arg) : Prop :=
  a2 = a1 \/ a2 = relabel_arg f a1.

Definition line_alike (f : json -> json) (p1 p2 : string * list arg) : Prop :=
  fst p2 = fst p1 /\ Forall2 (arg_alike f) (snd p1) (snd p2).

(** Two worlds side by side: the first talks to a child, the second to the
    child that gives the same answers under other ids, `f` giving the new
    id from the old.  They are akin when the second child is the first one
    relabelled, the setting is the same, the requests written so far are
    the same and the lines printed so far are alike. *)
Definition akin (f : json -> json) (w1 w2 : world) : Prop :=
  child w2 = map (relabel f) (child w1)
  /\ clock w2 = clock w1
  /\ env w2 = env w1
  /\ writes (past w2) = writes (past w1)
  /\ Forall2 (line_alike f) (lines (past w1)) (lines (past w2)).

Definition ends_alike {A} (R : A -> A -> Prop) (o1 o2 : outcome A) : Prop :=
  match o1, o2 with
  | Normal a1, Normal a2 => R a1 a2
  | Returned v1, Returned v2 => v1 = v2
  | Raised e1, Raised e2 => e1 = e2
  | Blocked, Blocked => True
  | _, _ => False
  end.

(** `sim f R m1 m2`: from related worlds, `m1` and `m2` end alike, with
    values related by `R`, in related worlds. *)
Definition sim {A} (f : json -> json) (R : A -> A -> Prop) (m1 m2 : M A) : Prop :=
  forall w1 w2, akin f w1 w2 ->
    ends_alike R (fst (m1 w1)) (fst (m2 w2)) /\ akin f (snd (m1 w1)) (snd (m2 w2)).

Definition same_line (f : json -> json) (l1 l2 : line) : Prop := l2 = relabel_line f l1.
Definition same_answer (f : json -> json) (j1 j2 : json) : Prop := j2 = with_id f j1.

(** ** More that is read off a log *)

(** The requests a script has in store, in the order of the source.  The
    time goes into the `session/create` request of `test_final.py`. *)
Definition requests (s : script) (now : Z) : list json :=
  match s with
  | debug_session_py =>
      [DebugSession.init_request; DebugSession.session_request]
  | test_complete_py =>
      [TestComplete.init_request; TestComplete.session_request;
       TestComplete.tool_request]
  | test_final_py =>
      [TestFinal.init_request; TestFinal.session_request now;
       TestFinal.tools_request; TestFinal.read_request]
  | test_mcp_py => [TestMcp.init_request; TestMcp.tools_request]
  | test_permissions_py =>
      [TestPermissions.init_request; TestPermissions.tools_request;
       TestPermissions.create_block_request; TestPermissions.list_blocks_request]
  | test_simple_py => [TestSimple.init_request; TestSimple.tools_request]
  | test_tool_execution_py =>
      [TestToolExecution.init_request; TestToolExecution.session_request;
       TestToolExecution.tool_request]
  end.

(** The lines `readline()` returned, in order. *)
Fixpoint reads (l : list event) : list line :=
  match l with
  | [] => []
  | Readline x :: rest => x :: reads rest
  | _ :: rest => reads rest
  end.

(** A line that decodes. *)
Definition answered (x : line) : bool :=
  match x with Encodes _ => true | _ => false end.

(** Every write is followed at once by a flush. *)
Fixpoint write_then_flush (l : list event) : bool :=
  match l with
  | [] => true
  | Write _ :: rest =>
      match rest with
      | Flush :: _ => write_then_flush rest
      | _ => false
      end
  | _ :: rest => write_then_flush rest
  end.

(** Every read comes right after a flush: `flushed` tells whether the
    event before was a flush. *)
Fixpoint read_after_flush (flushed : bool) (l : list event) : bool :=
  match l with
  | [] => true
  | Flush :: rest => read_after_flush true rest
  | Readline _ :: rest => flushed && read_after_flush false rest
  | _ :: rest => read_after_flush false rest
  end.

(** The log ends with a flush. *)
Fixpoint ends_with_flush (l : list event) : bool :=
  match l with
  | [] => false
  | [Flush] => true
  | _ :: rest => ends_with_flush rest
  end.

(** The log ends with `process.terminate()`: no `wait()` has returned
    after it. *)
Fixpoint ends_with_terminate (l : list event) : bool :=
  match l with
  | [] => false
  | [Terminate] => true
  | _ :: rest => ends_with_terminate rest
  end.

(** The call is stuck in a read: the last request written was not
    followed by a read that returned, and at that exchange the child is
    silent.  Every exchange before took one reply, so the exchange is
    the one after the reads that returned. *)
Definition stuck_in_read (rs : list reply) (l : list event) : bool :=
  (length (writes l) =? S (length (reads l)))%nat
  && match nth_error rs (length (reads l)) with
     | Some Silent => true
     | _ => false
     end.

Definition exits (o : obedience) : bool :=
  match o with Exits => true | _ => false end.

Definition is_unicode_error (e : exn) : bool :=
  match e with UnicodeDecodeError => true | _ => false end.

Definition is_popen (e : event) : bool :=
  match e with Popen _ => true | _ => false end.

Definition is_wait (e : event) : bool :=
  match e with Wait => true | _ => false end.

(** How many events of a kind a log holds. *)
Definition count (kind : event -> bool) (l : list event) : nat :=
  length (filter kind l).

Definition interrupt (r : reply) : bool :=
  match r with Interrupt => true | _ => false end.

(** The exceptions the handlers reported: a handler prints one line whose
    only hole is the exception, and no other `print` of the scripts has an
    exception for a hole. *)
Fixpoint reported (l : list event) : list exn :=
  match l with
  | [] => []
  | Print _ [AExn e] :: rest => e :: reported rest
  | _ :: rest => reported rest
  end.

(** The exceptions whose traceback was printed. *)
Fixpoint tracebacks (l : list event) : list exn :=
  match l with
  | [] => []
  | PrintExc e :: rest => e :: tracebacks rest
  | _ :: rest => tracebacks rest
  end.

(** Nothing is printed after the report of an exception. *)
Fixpoint report_is_last (l : list event) : bool :=
  match l with
  | [] => true
  | Print _ [AExn _] :: rest =>
      match printed rest with [] => true | _ :: _ => false end
  | _ :: rest => report_is_last rest
  end.

(** The three scripts whose handler calls `traceback.print_exc()`. *)
Definition prints_traceback (s : script) : bool :=
  match s with
  | test_complete_py | test_final_py | test_simple_py => true
  | _ => false
  end.

(** The exceptions the handler of a script can come to report: a
    `BrokenPipeError` from a write and a `UnicodeDecodeError` from a read
    in every script; what `json.loads` raises in the six scripts that
    decode; what the subscripts, `in`, `len`, `.get` and `.lower` raise
    where the script has them. *)
Definition may_report (s : script) (e : exn) : bool :=
  match e with
  | BrokenPipeError | UnicodeDecodeError => true
  | JSONDecodeError | RecursionError | ValueError =>
      match s with debug_session_py => false | _ => true end
  | KeyError | TypeError =>
      match s with debug_session_py | test_mcp_py => false | _ => true end
  | AttributeError =>
      match s with
      | test_final_py | test_tool_execution_py | test_permissions_py => true
      | _ => false
      end
  | UnboundLocalError =>
      match s with test_simple_py => true | _ => false end
  | IndexError | FileNotFoundError | KeyboardInterrupt | SystemExit _ => false
  end.

(** The operations on documents raise nothing but the exceptions listed. *)
Definition throws {A} (es : list exn) (r : res A) : Prop :=
  match r with
  | Ok _ => True
  | Err e => In e es
  end.

(** Facts about a call of a script's function in the setting `e` on a
    child `rs` that ended as `o` with the log `l`: the requests (the ones
    of the source, in order; the k-th with the id k; the `initialize`
    request with the required parameters except in the two scripts that
    send none), the order of the calls on the pipes, the child process,
    the reports of the handler, and what the way the call ends tells. *)
Definition after_call
    (s : script) (e : setting) (rs : list reply) (now : Z)
    (o : outcome pyret) (l : list event)
  : Prop :=
  writes l = firstn (length (writes l)) (requests s now)
  /\ ids l = first_ids (length (writes l))
  /\ forallb (fun r => implb (is_initialize r)
                         (Bool.eqb (has_required_params r)
                                   (negb (sends_empty_params s))))
       (writes l) = true
  /\ alternating false l = true
  /\ write_then_flush l = true
  /\ read_after_flush false l = true
  /\ (if binary e
      then hd_error l = Some (Popen forge_mcp) /\ count is_popen l = 1%nat
      else l = [])
  /\ count is_terminate l
     = (if binary e && negb (stuck_in_read rs l) then 1 else 0)%nat
  /\ count is_wait l
     = (if binary e && negb (stuck_in_read rs l) && exits (on_sigterm e)
        then 1 else 0)%nat
  /\ (length (reported l) <=? 1)%nat = true
  /\ forallb (may_report s) (reported l) = true
  /\ report_is_last l = true
  /\ tracebacks l = (if prints_traceback s then reported l else [])
  /\ mentions_skip l = false
  /\ stuck_in_read rs l = blocked o && negb (terminated l)
  /\ match o with
     | Normal v =>
         binary e = true /\ on_sigterm e = Exits
         /\ ends_with_shutdown l = true
         /\ length (writes l)
            = (length (reads l) + length (filter is_unicode_error (reported l)))%nat
         /\ match v with
            | RBool true =>
                returns_bool s = true
                /\ length (writes l) = 4%nat
                /\ forallb answered (firstn 2 (reads l)) = true
                /\ reported l = []
            | RBool false =>
                returns_bool s = true
                /\ says "Error during testing: {e}" l
                   || says "   No response received" l = true
            | RNone => returns_bool s = false
            end
     | Raised x =>
         match x with
         | FileNotFoundError => binary e = false
         | KeyboardInterrupt =>
             binary e = true
             /\ (length (writes l) <=? S (length (reads l)))%nat = true
             /\ (if ends_with_shutdown l
                 then on_sigterm e = Exits /\ existsb interrupt rs = true
                      /\ length (writes l) = S (length (reads l))
                 else on_sigterm e = LingersUntilInterrupt
                      /\ ends_with_terminate l = true)
         | _ => False
         end
     | Blocked =>
         binary e = true
         /\ (if terminated l
             then on_sigterm e = Lingers /\ ends_with_terminate l = true
             else ends_with_flush l = true)
     | Returned _ => False
     end.

Definition more_invariants
    (json_loads : string -> option json) (s : script) (e : setting)
    (rs : list reply) (now : Z)
  : Prop :=
  let (o, w) := function json_loads s (start_in e rs now) in
  after_call s e rs now o (log w).

(** A response reports an error that is not about permissions: it has an
    `error` that is an object whose `message` is a string in which
    `permission` does not occur, whatever the case of the letters. *)
Definition failed_for_another_reason (kvs : list (string * json)) : bool :=
  match assoc "error" kvs with
  | Some (JObj error) =>
      match assoc "message" error with
      | Some (JStr message) => negb (infix "permission" (lower_string message))
      | _ => false
      end
  | _ => false
  end.

(** The three lines test 3 of `test_permissions.py` can report its verdict
    with, and the verdicts a log holds. *)
Definition create_block_verdicts : list string :=
  [TestPermissions.permission_working;
   TestPermissions.permission_unexpected;
   TestPermissions.permission_too_permissive].

Definition verdicts (l : list event) : list string :=
  filter (fun text => existsb (String.eqb text) create_block_verdicts) (printed l).

(** The lines whose stripped text was printed, and the documents printed
    on their own. *)
Fixpoint echoed (l : list event) : list line :=
  match l with
  | [] => []
  | Print _ [AStripped x] :: rest => x :: echoed rest
  | _ :: rest => echoed rest
  end.

Fixpoint dumped (l : list event) : list json :=
  match l with
  | [] => []
  | Print _ [AJson j] :: rest => j :: dumped rest
  | _ :: rest => dumped rest
  end.

(** The documents among the lines read. *)
Fixpoint decoded (xs : list line) : list json :=
  match xs with
  | [] => []
  | Encodes j :: rest => j :: decoded rest
  | _ :: rest => decoded rest
  end.

(** The child does not take the first request: it has exited, or it has
    closed its input. *)
Definition gone (rs : list reply) : bool :=
  match rs with
  | [] | Refuses :: _ => true
  | _ => false
  end.

(** The child takes the request and answers with a line that `readline()`
    returns and `json.loads` does not reject: a document, or nothing at
    all at end of stream. *)
Definition lets_go_on (r : reply) : bool :=
  match r with
  | Says EOF | Says (Encodes _) => true
  | _ => false
  end.

Definition exits_with (code : Z) (st : status) : bool :=
  match st with
  | Exit n => Z.eqb n code
  | _ => false
  end.

(** A response to `list_blocks` whose text decodes to two blocks, and one
    whose content is empty. *)
Definition two_blocks : list (string * json) :=
  [("jsonrpc", JStr "2.0"); ("id", JInt 4);
   ("result",
    JObj [("content", JArr [JObj [("type", JStr "text"); ("text", JStr "[{}, {}]")]])])].

(** A server that answers `session/create` with a result that has no
    `session_id`. *)
Definition session_without_id : list (string * json) :=
  [("jsonrpc", JStr "2.0"); ("id", JInt 2); ("result", JObj [("id", JStr "s-1")])].

(** An answer that reports an error. *)
Definition method_not_found : list (string * json) :=
  [("jsonrpc", JStr "2.0"); ("id", JInt 1);
   ("error", JObj [("code", JInt (-32601)); ("message", JStr "method not found")])].

(** ** The scripts at work *)

(** The decoder on the text of a content item. *)
Example decode_two_blocks : Decoder.decode "[{}, {}]" = Some (JArr [JObj []; JObj []]).
Proof. reflexivity. Qed.

(** `test_permissions.py` against the healthy server: both checks report
    success, the blocks are counted, and the process exits with 0. *)
Example permissions_on_healthy_server :
  printed (log (snd (run Decoder.decode test_permissions_py healthy 0)))
  = ["MCP Server Permission Test";
     "==================================================";
     "1. Sending initialize request...";
     "   Initialize response: {response.get('result', {}).get('server_info', {})}";
     "\n2. Checking available tools...";
     "   Available tools: {len(tools)}";
     "   - {tool['name']}: {tool['description']}";
     "\n3. Testing create_block tool (should fail with permission error)...";
     "   Expected permission error: {response['error']['message']}";
     TestPermissions.permission_working;
     "\n4. Testing list_blocks tool (should work with read permission)...";
     TestPermissions.list_blocks_succeeded;
     "   Found {len(result_data)} blocks";
     "\n✅ Permission test completed"]
  /\ exit_code Decoder.decode test_permissions_py healthy 0 = Exit 0.
Proof. split; reflexivity. Qed.

(** `test_permissions.py` when the server has gone: the first write is
    refused, the handler returns `False`, and the process exits with 1. *)
Example permissions_without_server :
  exit_code Decoder.decode test_permissions_py [] 0 = Exit 1.
Proof. reflexivity. Qed.

(** `test_permissions.py` when the program is not there: `Popen` raises
    before the `try` statement, nothing catches the exception, and the
    process exits with 1 after the two banner lines. *)
Example permissions_without_binary :
  run_in Decoder.decode no_binary test_permissions_py healthy 0
  = (Raised FileNotFoundError,
     mkWorld healthy 0
       [Print "==================================================" [];
        Print "MCP Server Permission Test" []]
       no_binary)
  /\ exit_code_in Decoder.decode no_binary test_permissions_py healthy 0 = Exit 1.
Proof. split; reflexivity. Qed.

(** `test_mcp_permissions` when the user interrupts the read of the second
    answer: the `finally` block shuts the child down, and the exception
    leaves the function. *)
Example interrupt_in_a_read :
  fst (function Decoder.decode test_permissions_py (start interrupted 0))
  = Raised KeyboardInterrupt
  /\ ends_with_shutdown
       (log (snd (function Decoder.decode test_permissions_py (start interrupted 0))))
     = true.
Proof. split; reflexivity. Qed.

(** `test_mcp_server` and a child that lives on after SIGTERM: the script
    hangs in `wait()`. *)
Example immortal_child_blocks_wait :
  fst (function Decoder.decode test_mcp_py (start_in immortal_child closes_its_output 0))
  = Blocked
  /\ ends_with_terminate
       (log (snd (function Decoder.decode test_mcp_py
                    (start_in immortal_child closes_its_output 0))))
     = true.
Proof. split; reflexivity. Qed.

(** ** Loops over the tools, summarised *)

Lemma for_each_tool_lines (text : string) (xs : list json) (w : world) :
  for_each xs
    (fun tool =>
       name <- eval (getitem tool "name") ;;
       description <- eval (getitem tool "description") ;;
       print text [AJson name; AJson description]) w
  = (loop_outcome xs,
     mkWorld (child w) (clock w) (rev (tool_lines text xs) ++ past w) (env w)).
Proof.
  revert w; induction xs as [|x xs IH]; intros w.
  - destruct w; reflexivity.
  - cbn [for_each]. unfold bind at 1. unfold loop_outcome.
    cbn [tool_lines tool_stop].
    destruct (getitem x "name") as [name|e];
      [|destruct w; reflexivity].
    destruct (getitem x "description") as [description|e];
      [|destruct w; reflexivity].
    unfold bind, eval, ret, print, emit. rewrite IH.
    cbn [child clock past env rev]. rewrite <- app_assoc. reflexivity.
Qed.

Lemma simple_tools_loop (xs : list json) (w : world) :
  for_each xs TestSimple.print_tool w
  = (loop_outcome xs,
     mkWorld (child w) (clock w)
       (rev (tool_lines "     - {tool['name']}: {tool['description']}" xs) ++ past w)
       (env w)).
Proof. apply for_each_tool_lines. Qed.

Lemma permissions_tools_loop (xs : list json) (w : world) :
  for_each xs TestPermissions.print_tool w
  = (loop_outcome xs,
     mkWorld (child w) (clock w)
       (rev (tool_lines "   - {tool['name']}: {tool['description']}" xs) ++ past w)
       (env w)).
Proof. apply for_each_tool_lines. Qed.

Lemma tool_stop_cases (xs : list json) :
  tool_stop xs = None \/ tool_stop xs = Some KeyError \/ tool_stop xs = Some TypeError.
Proof.
  induction xs as [|x xs IH]; [left; reflexivity|].
  cbn [tool_stop]. unfold getitem.
  destruct x as [| | | | | |kvs]; try (right; right; reflexivity).
  destruct (assoc "name" kvs); [|destruct (assoc "description" kvs); right; left; reflexivity].
  destruct (assoc "description" kvs); [exact IH | right; left; reflexivity].
Qed.

(** The log of a world whose past has a loop's lines in the middle. *)
Lemma rev_append_lines (ls past acc : list event) :
  rev_append (rev ls ++ past) acc = rev_append past (ls ++ acc).
Proof.
  rewrite !rev_append_rev, rev_app_distr, rev_involutive, <- app_assoc.
  reflexivity.
Qed.

(** The lines of a loop are prints: what is read off the requests, the
    reads and the shutdown passes over them. *)
Ltac over_tool_lines xs :=
  let x := fresh "x" in
  let IH := fresh "IH" in
  induction xs as [|x xs IH]; [reflexivity|];
  cbn [tool_lines];
  destruct (getitem x "name"); [|reflexivity];
  destruct (getitem x "description"); [|reflexivity];
  exact IH.

Lemma writes_tool_lines text xs rest :
  writes (tool_lines text xs ++ rest) = writes rest.
Proof. over_tool_lines xs. Qed.

Lemma alternating_tool_lines b text xs rest :
  alternating b (tool_lines text xs ++ rest) = alternating b rest.
Proof. over_tool_lines xs. Qed.

Lemma ends_with_shutdown_tool_lines text xs rest :
  ends_with_shutdown (tool_lines text xs ++ rest) = ends_with_shutdown rest.
Proof. over_tool_lines xs. Qed.

Lemma terminated_tool_lines text xs rest :
  existsb is_terminate (tool_lines text xs ++ rest) = existsb is_terminate rest.
Proof. over_tool_lines xs. Qed.

(** ** Symbolic execution of a script on an arbitrary child *)

(** The operations on documents are safe: see `safe`. *)
Lemma contains_safe k c : safe (contains k c).
Proof. destruct c; exact I || reflexivity. Qed.

Lemma getitem_safe c k : safe (getitem c k).
Proof. destruct c as [| | | | | |kvs]; try reflexivity. cbn. destruct (assoc k kvs); exact I || reflexivity. Qed.

Lemma getitem0_safe c : safe (getitem0 c).
Proof.
  destruct c as [| | | |s|xs|]; try reflexivity; cbn.
  - destruct (chars s); exact I || reflexivity.
  - destruct xs; exact I || reflexivity.
Qed.

Lemma get_safe c k d : safe (get c k d).
Proof. destruct c; exact I || reflexivity. Qed.

Lemma len_safe c : safe (len c).
Proof. destruct c; exact I || reflexivity. Qed.

Lemma lower_safe c : safe (lower c).
Proof. destruct c; exact I || reflexivity. Qed.

Lemma iter_safe c : safe (iter c).
Proof. destruct c; exact I || reflexivity. Qed.

Lemma loads_strip_safe l : safe (loads_strip l).
Proof. destruct l; exact I || reflexivity. Qed.

Lemma loads_safe f x : safe (TestPermissions.loads f x).
Proof.
  destruct x as [| | | |s| |]; try reflexivity. cbn.
  destruct (f s); exact I || reflexivity.
Qed.

Create HintDb pysafe.
#[local] Hint Resolve contains_safe getitem_safe getitem0_safe get_safe len_safe
  lower_safe iter_safe loads_strip_safe loads_safe : pysafe.

(** Unfolding the scripts and the monad; the operations on documents are
    unfolded where they meet a constructor. *)
Ltac exec :=
  cbv beta iota zeta delta
    [function main run exit_code run_in exit_code_in exit_status sys_exit
     DebugSession.debug_session DebugSession.main
     TestComplete.test_complete TestComplete.main
     TestFinal.test_mcp TestFinal.main
     TestMcp.test_mcp_server TestMcp.main
     TestPermissions.test_mcp_permissions TestPermissions.main
     TestPermissions.test1_initialize TestPermissions.test2_list_tools
     TestPermissions.test3_create_block TestPermissions.test4_list_blocks
     TestSimple.test_basic_functionality TestSimple.main
     TestToolExecution.test_tool_execution TestToolExecution.main
     call bind ret emit popen try_except_finally finally_ try_except
     stdin_write stdin_flush stdout_readline print print_exc terminate wait
     shutdown eval raise return_ local time_time
     start start_in at_call usual child clock past env binary on_sigterm
     fst snd truthy loop_outcome blocked];
  cbn [contains getitem getitem0 get len lower iter loads_strip
       TestPermissions.loads is_Exception];
  unfold has_key.

(** One step: rewrite a loop by its summary, or split on the innermost
    term that blocks the computation. *)
Ltac loop :=
  match goal with
  | |- context [for_each ?xs TestSimple.print_tool ?w] =>
      rewrite (simple_tools_loop xs w); unfold loop_outcome;
      destruct (tool_stop_cases xs) as [-> | [-> | ->]]
  | |- context [for_each ?xs TestPermissions.print_tool ?w] =>
      rewrite (permissions_tools_loop xs w); unfold loop_outcome;
      destruct (tool_stop_cases xs) as [-> | [-> | ->]]
  end.

Ltac fork_on x :=
  first
    [ let S := fresh "S" in
      assert (S : safe x) by auto with pysafe;
      destruct x; cbn [safe] in S; [clear S | exec; rewrite ?S; clear S]
    | destruct x ].

Ltac fork :=
  match goal with
  | |- context [match ?x with _ => _ end] =>
      lazymatch x with
      | context [match _ with _ => _ end] => fail
      | _ => fork_on x
      end
  end.

Ltac paths := exec; repeat (first [loop | fork]; exec).

(** At the end of a path: put the log in order. *)
Ltac in_order :=
  unfold log; cbn [past rev_append];
  rewrite ?rev_append_lines; cbn [rev_append].

(** ** How a call can end *)

Section Invariants.

Variable json_loads : string -> option json.

Lemma function_outcome (s : script) (w : world) :
  outcome_shape s (env w) (fst (function json_loads s w)).
Proof.
  destruct w as [rs now p [b sg]].
  destruct s; paths; cbn [outcome_shape binary]; auto.
Qed.

End Invariants.

(** ** What every run of every script satisfies *)

Lemma reads_tool_lines text xs rest :
  reads (tool_lines text xs ++ rest) = reads rest.
Proof. over_tool_lines xs. Qed.

Lemma write_then_flush_tool_lines text xs rest :
  write_then_flush (tool_lines text xs ++ rest) = write_then_flush rest.
Proof. over_tool_lines xs. Qed.

Lemma read_after_flush_tool_lines text xs rest :
  read_after_flush false (tool_lines text xs ++ rest) = read_after_flush false rest.
Proof. over_tool_lines xs. Qed.

Lemma ends_with_flush_tool_lines text xs rest :
  ends_with_flush (tool_lines text xs ++ rest) = ends_with_flush rest.
Proof. over_tool_lines xs. Qed.

Lemma filter_popen_tool_lines text xs rest :
  filter is_popen (tool_lines text xs ++ rest) = filter is_popen rest.
Proof. over_tool_lines xs. Qed.

Lemma filter_terminate_tool_lines text xs rest :
  filter is_terminate (tool_lines text xs ++ rest) = filter is_terminate rest.
Proof. over_tool_lines xs. Qed.

Lemma filter_wait_tool_lines text xs rest :
  filter is_wait (tool_lines text xs ++ rest) = filter is_wait rest.
Proof. over_tool_lines xs. Qed.

Lemma reported_tool_lines text xs rest :
  reported (tool_lines text xs ++ rest) = reported rest.
Proof. over_tool_lines xs. Qed.

Lemma tracebacks_tool_lines text xs rest :
  tracebacks (tool_lines text xs ++ rest) = tracebacks rest.
Proof. over_tool_lines xs. Qed.

Lemma report_is_last_tool_lines text xs rest :
  report_is_last (tool_lines text xs ++ rest) = report_is_last rest.
Proof. over_tool_lines xs. Qed.

Lemma ends_with_terminate_tool_lines text xs rest :
  ends_with_terminate (tool_lines text xs ++ rest) = ends_with_terminate rest.
Proof. over_tool_lines xs. Qed.

(** A text that the text of the loop's lines is not is looked for past
    the loop's lines. *)
Lemma printed_tool_lines (found : string -> bool) (text : string) xs rest :
  found text = false ->
  existsb found (printed (tool_lines text xs ++ rest)) = existsb found (printed rest).
Proof.
  intros Ht. induction xs as [|x xs IH]; [reflexivity|].
  cbn [tool_lines].
  destruct (getitem x "name"); [|reflexivity].
  destruct (getitem x "description"); [|reflexivity].
  cbn [app printed existsb]. rewrite Ht. exact IH.
Qed.

(** The exceptions each operation on documents can raise. *)
Lemma contains_throws k c : throws [TypeError] (contains k c).
Proof. destruct c; cbn; tauto. Qed.

Lemma getitem_throws c k : throws [KeyError; TypeError] (getitem c k).
Proof. destruct c as [| | | | | |kvs]; cbn; try tauto. destruct (assoc k kvs); cbn; tauto. Qed.

Lemma getitem0_throws c : throws [IndexError; KeyError; TypeError] (getitem0 c).
Proof.
  destruct c as [| | | |s|xs|]; cbn; try tauto.
  - destruct (chars s); cbn; tauto.
  - destruct xs; cbn; tauto.
Qed.

Lemma get_throws c k d : throws [AttributeError] (get c k d).
Proof. destruct c; cbn; tauto. Qed.

Lemma len_throws c : throws [TypeError] (len c).
Proof. destruct c; cbn; tauto. Qed.

Lemma lower_throws c : throws [AttributeError] (lower c).
Proof. destruct c; cbn; tauto. Qed.

Lemma iter_throws c : throws [TypeError] (iter c).
Proof. destruct c; cbn; tauto. Qed.

Lemma loads_strip_throws l :
  throws [JSONDecodeError; RecursionError; ValueError] (loads_strip l).
Proof. destruct l; cbn; tauto. Qed.

Lemma loads_throws f x : throws [JSONDecodeError; TypeError] (TestPermissions.loads f x).
Proof.
  destruct x as [| | | |s| |]; cbn; try tauto.
  destruct (f s); cbn; tauto.
Qed.

(** Splitting on an operation, one case for each exception it can raise. *)
Ltac raised_by x S :=
  lazymatch x with
  | contains ?k ?c => pose proof (contains_throws k c) as S
  | getitem ?c ?k => pose proof (getitem_throws c k) as S
  | getitem0 ?c => pose proof (getitem0_throws c) as S
  | get ?c ?k ?d => pose proof (get_throws c k d) as S
  | len ?c => pose proof (len_throws c) as S
  | lower ?c => pose proof (lower_throws c) as S
  | iter ?c => pose proof (iter_throws c) as S
  | loads_strip ?l => pose proof (loads_strip_throws l) as S
  | TestPermissions.loads ?f ?v => pose proof (loads_throws f v) as S
  end.

Ltac each_exception S :=
  lazymatch type of S with
  | False => destruct S
  | _ \/ _ => destruct S as [S|S]; [destruct S | each_exception S]
  end.

Ltac fork_by_exception :=
  match goal with
  | |- context [match ?x with _ => _ end] =>
      lazymatch x with
      | context [match _ with _ => _ end] => fail
      | _ =>
          first
            [ let S := fresh "S" in
              raised_by x S;
              destruct x; cbn [throws In] in S; [clear S | each_exception S]
            | destruct x ]
      end
  end.

Ltac paths_by_exception := exec; repeat (first [loop | fork_by_exception]; exec).

(** The lines of a loop come after the line that counts the tools; what
    is read off the log is the same with them and without them. *)
Section OverToolLines.

Variables (t : string) (n : Z) (text : string) (xs : list json) (post : list event).

#[local] Notation without_lines := (Print t [AInt n] :: post).
#[local] Notation with_lines := (Print t [AInt n] :: tool_lines text xs ++ post).

Ltac by_cases :=
  repeat match goal with
         | |- context [match ?x with _ => _ end] => destruct x
         end.

Ltac over_prefix pre law :=
  let a := fresh "a" in
  let IH := fresh "IH" in
  induction pre as [|a pre IH];
  [ cbn; rewrite ?law; reflexivity
  | destruct a; cbn; rewrite ?IH; try reflexivity; by_cases; rewrite ?IH; reflexivity ].

Lemma writes_over pre : writes (pre ++ with_lines) = writes (pre ++ without_lines).
Proof. over_prefix pre writes_tool_lines. Qed.

Lemma reads_over pre : reads (pre ++ with_lines) = reads (pre ++ without_lines).
Proof. over_prefix pre reads_tool_lines. Qed.

Lemma reported_over pre : reported (pre ++ with_lines) = reported (pre ++ without_lines).
Proof. over_prefix pre reported_tool_lines. Qed.

Lemma tracebacks_over pre :
  tracebacks (pre ++ with_lines) = tracebacks (pre ++ without_lines).
Proof. over_prefix pre tracebacks_tool_lines. Qed.

Lemma filter_popen_over pre :
  filter is_popen (pre ++ with_lines) = filter is_popen (pre ++ without_lines).
Proof. over_prefix pre filter_popen_tool_lines. Qed.

Lemma filter_terminate_over pre :
  filter is_terminate (pre ++ with_lines) = filter is_terminate (pre ++ without_lines).
Proof. over_prefix pre filter_terminate_tool_lines. Qed.

Lemma filter_wait_over pre :
  filter is_wait (pre ++ with_lines) = filter is_wait (pre ++ without_lines).
Proof. over_prefix pre filter_wait_tool_lines. Qed.

Lemma printed_over (found : string -> bool) pre :
  found text = false ->
  existsb found (printed (pre ++ with_lines))
  = existsb found (printed (pre ++ without_lines)).
Proof.
  intros Hfound.
  induction pre as [|a pre IH].
  - cbn. rewrite (printed_tool_lines _ _ _ _ Hfound). reflexivity.
  - destruct a; cbn; rewrite ?IH; reflexivity.
Qed.

Lemma says_over (line : string) pre :
  String.eqb line text = false ->
  says line (pre ++ with_lines) = says line (pre ++ without_lines).
Proof. apply printed_over. Qed.

Lemma terminated_over pre :
  terminated (pre ++ with_lines) = terminated (pre ++ without_lines).
Proof.
  unfold terminated.
  induction pre as [|a pre IH].
  - cbn. apply terminated_tool_lines.
  - destruct a; cbn; rewrite ?IH; reflexivity.
Qed.

Lemma alternating_over pre awaiting :
  alternating awaiting (pre ++ with_lines) = alternating awaiting (pre ++ without_lines).
Proof.
  revert awaiting. induction pre as [|a pre IH]; intros awaiting.
  - cbn. apply alternating_tool_lines.
  - destruct a; cbn; rewrite ?IH; reflexivity.
Qed.

Lemma ends_with_shutdown_over pre :
  ends_with_shutdown (pre ++ with_lines) = ends_with_shutdown (pre ++ without_lines).
Proof.
  induction pre as [|a pre IH].
  - cbn. apply ends_with_shutdown_tool_lines.
  - destruct a; cbn [app ends_with_shutdown]; try exact IH.
    destruct pre as [|b pre]; [exact IH|].
    destruct b; cbn [app] in *; try exact IH.
    destruct pre as [|c pre]; exact IH.
Qed.

Lemma ends_with_terminate_over pre :
  ends_with_terminate (pre ++ with_lines) = ends_with_terminate (pre ++ without_lines).
Proof.
  induction pre as [|a pre IH].
  - cbn. apply ends_with_terminate_tool_lines.
  - destruct a; cbn [app ends_with_terminate]; try exact IH.
    destruct pre as [|b pre]; [|exact IH].
    cbn. apply ends_with_terminate_tool_lines.
Qed.

Lemma hd_error_over pre : hd_error (pre ++ with_lines) = hd_error (pre ++ without_lines).
Proof. destruct pre; reflexivity. Qed.

Lemma write_then_flush_over pre :
  write_then_flush (pre ++ with_lines) = write_then_flush (pre ++ without_lines).
Proof.
  induction pre as [|a pre IH].
  - cbn. apply write_then_flush_tool_lines.
  - destruct a; cbn [app write_then_flush]; try exact IH.
    destruct pre as [|b pre]; [reflexivity|].
    destruct b; cbn [app] in *; try reflexivity. exact IH.
Qed.

Lemma read_after_flush_over pre flushed :
  read_after_flush flushed (pre ++ with_lines)
  = read_after_flush flushed (pre ++ without_lines).
Proof.
  revert flushed. induction pre as [|a pre IH]; intros flushed.
  - cbn. apply read_after_flush_tool_lines.
  - destruct a; cbn; rewrite ?IH; reflexivity.
Qed.

Lemma ends_with_flush_over pre :
  ends_with_flush (pre ++ with_lines) = ends_with_flush (pre ++ without_lines).
Proof.
  induction pre as [|a pre IH].
  - cbn. apply ends_with_flush_tool_lines.
  - destruct a; cbn [app ends_with_flush]; try exact IH.
    destruct pre as [|b pre]; [|exact IH].
    cbn. apply ends_with_flush_tool_lines.
Qed.

Lemma printed_over_nonempty pre :
  match printed (pre ++ with_lines) with [] => true | _ :: _ => false end
  = match printed (pre ++ without_lines) with [] => true | _ :: _ => false end.
Proof.
  induction pre as [|a pre IH]; [reflexivity|].
  destruct a; cbn; try exact IH; reflexivity.
Qed.

Lemma report_is_last_over pre :
  report_is_last (pre ++ with_lines) = report_is_last (pre ++ without_lines).
Proof.
  induction pre as [|a pre IH].
  - cbn. apply report_is_last_tool_lines.
  - destruct a as [| | | |line args| | |]; cbn [app report_is_last]; try exact IH.
    destruct args as [|[] [|]]; try exact IH.
    apply printed_over_nonempty.
Qed.

Lemma after_call_over_tool_lines s e rs now o pre :
  String.eqb "Error during testing: {e}" text = false ->
  String.eqb "   No response received" text = false ->
  infix "skip" (lower_string text) = false ->
  after_call s e rs now o (pre ++ without_lines) ->
  after_call s e rs now o (pre ++ with_lines).
Proof.
  intros He Hn Hs. unfold after_call, count, stuck_in_read, mentions_skip, ids.
  rewrite !writes_over, !reads_over, !reported_over, !tracebacks_over,
    !filter_popen_over, !filter_terminate_over, !filter_wait_over,
    !hd_error_over, !write_then_flush_over, !read_after_flush_over,
    !ends_with_flush_over, !report_is_last_over, !terminated_over,
    !alternating_over, !ends_with_shutdown_over, !ends_with_terminate_over,
    !(says_over _ _ He), !(says_over _ _ Hn),
    !(printed_over (fun t => infix "skip" (lower_string t)) _ Hs).
  destruct e as [[] sg]; cbn [binary];
    [exact (fun H => H)
    | destruct pre; intros (_ & _ & _ & _ & _ & _ & H & _); discriminate H].
Qed.

End OverToolLines.

(** The events before the line that counts the tools. *)
Ltac before_loop l :=
  lazymatch l with
  | Print _ [AInt _] :: (tool_lines _ _ ++ _) => constr:(@nil event)
  | ?e :: ?rest => let pre := before_loop rest in constr:(e :: pre)
  end.

Section MoreInvariants.

Variable json_loads : string -> option json.

Ltac closed_leaf := vm_compute; repeat split; reflexivity.

Ltac tool_leaf :=
  lazymatch goal with
  | |- after_call ?s ?e ?rs ?now ?o ?l =>
      let pre := before_loop l in
      lazymatch l with
      | context [Print ?t [AInt ?n] :: (tool_lines ?text ?xs ++ ?post)] =>
          change (after_call s e rs now o
                    (pre ++ Print t [AInt n] :: tool_lines text xs ++ post));
          apply after_call_over_tool_lines;
          [reflexivity | reflexivity | reflexivity | closed_leaf]
      end
  end.

Ltac more_leaf :=
  in_order;
  lazymatch goal with
  | |- context [tool_lines] => tool_leaf
  | |- _ => closed_leaf
  end.

Lemma every_run_more (s : script) (e : setting) (rs : list reply) (now : Z) :
  more_invariants json_loads s e rs now.
Proof.
  unfold more_invariants. destruct e as [b sg].
  destruct s; paths_by_exception; more_leaf.
Qed.

End MoreInvariants.

(** ** Reading the facts of a run *)

(** The facts of `after_call` about one run, under fixed names. *)
Ltac facts json_loads s e rs now :=
  let H := fresh "H" in
  pose proof (every_run_more json_loads s e rs now) as H;
  unfold more_invariants in H;
  destruct (function json_loads s (start_in e rs now)) as [o w];
  unfold after_call in H; cbn [fst snd] in *;
  destruct H as (Hrequests & Hids & Hinit & Hturns & Hflush & Hread & Hpopen
                 & Hterminate & Hwait & Hone & Hmay & Hlast & Htracebacks
                 & Hskip & Hstuck & Hend).

(** The same for a run in the usual setting. *)
Ltac usual_facts json_loads s rs now :=
  change (start rs now) with (start_in usual rs now) in *;
  facts json_loads s usual rs now;
  cbn [usual binary on_sigterm exits andb] in *.

Lemma terminated_count (l : list event) :
  terminated l = negb (count is_terminate l =? 0)%nat.
Proof.
  unfold terminated, count.
  induction l as [|a l IH]; [reflexivity|].
  cbn [existsb filter]. destruct (is_terminate a); [reflexivity | exact IH].
Qed.

(** ** Request ids *)

Lemma first_ids_NoDup (n : nat) : NoDup (first_ids n).
Proof.
  unfold first_ids. apply Injective_map_NoDup; [|apply seq_NoDup].
  intros i j H. injection H as H. apply Nat2Z.inj; assumption.
Qed.

(** C7: in one call of a script's function, whatever the child does, the
    k-th request written carries the id k: the ids start at 1, go up by 1
    with each request, and no id is used twice. *)
Theorem request_ids_count_from_one
    (json_loads : string -> option json) (s : script) (rs : list reply) (now : Z) :
  let l := log (snd (function json_loads s (start rs now))) in
  ids l = first_ids (length (writes l)) /\ NoDup (ids l).
Proof.
  intros l; subst l.
  usual_facts json_loads s rs now.
  split; [exact Hids|].
  rewrite Hids; apply first_ids_NoDup.
Qed.

(** ** Requests in flight *)

(** C2, as stated, fails: when the child closes its output without
    answering `initialize`, `test_mcp_server` prints that no response was
    received and writes `tools/list` all the same.  Two requests are then
    unanswered, nothing is raised, and the function returns `None`. *)
Lemma next_request_after_unanswered_request :
  fst (TestMcp.test_mcp_server (start closes_its_output 0)) = Normal RNone
  /\ log (snd (TestMcp.test_mcp_server (start closes_its_output 0)))
     = [Popen forge_mcp;
        Print "Sending initialize request..." [];
        Write TestMcp.init_request; Flush; Readline EOF;
        Print "No response received" [];
        Print "\nSending tools/list request..." [];
        Write TestMcp.tools_request; Flush; Readline EOF;
        Print "No response received" [];
        Terminate; Wait]
  /\ peak_in_flight 0 (log (snd (TestMcp.test_mcp_server (start closes_its_output 0))))
     = 2%nat.
Proof. repeat split. Qed.

(** C2, amended: no script checks for a request in flight and none raises
    `ReentrancyError`.  In every call of every script's function, in every
    setting, each write of a request is followed by a call of `readline()`
    that returns before the next write: writes and reads take turns,
    starting with a write.  A read that returns the empty string at end of
    stream counts as such a call: after it `debug_session`,
    `test_mcp_server` and `test_tool_execution` write their second request
    although the first was not answered, and the other four scripts do
    not; in `test_permissions.py` the same holds of test 3, after which
    the request of test 4 is written, and test 4 falls through likewise,
    to the end of the `try` block. *)
Theorem writes_and_reads_take_turns
    (json_loads : string -> option json) (s : script) (e : setting)
    (rs : list reply) (x : line) (rest : list reply) (now : Z) :
  alternating false (log (snd (function json_loads s (start_in e rs now)))) = true
  /\ (2 <=? length (writes (log (snd (function json_loads s
                       (start (Says EOF :: Says x :: rest) now))))))%nat
     = goes_on_after_empty_read s
  /\ writes (log (snd ((TestPermissions.test3_create_block ;;
                        TestPermissions.test4_list_blocks json_loads)
                         (start (Says EOF :: Says x :: rest) now))))
     = [TestPermissions.create_block_request; TestPermissions.list_blocks_request]
  /\ TestPermissions.test4_list_blocks json_loads (start (Says EOF :: rest) now)
     = (Normal tt,
        mkWorld rest now
          [Print "   No response received" [];
           Readline EOF; Flush; Write TestPermissions.list_blocks_request;
           Print "\n4. Testing list_blocks tool (should work with read permission)..." []]
          usual).
Proof.
  split; [|split; [|split]].
  - facts json_loads s e rs now. exact Hturns.
  - destruct s; paths; reflexivity.
  - paths; reflexivity.
  - reflexivity.
Qed.

(** ** Reads without a deadline *)

(** C5, as stated, fails: a child that accepts `initialize` and prints
    nothing blocks `test_mcp_server` in `readline()`.  No exception is
    raised, and `terminate()` is not reached. *)
Lemma silent_child_blocks_test_mcp_server :
  TestMcp.test_mcp_server (start [Silent] 0)
  = (Blocked,
     mkWorld [] 0
       [Flush; Write TestMcp.init_request;
        Print "Sending initialize request..." []; Popen forge_mcp]
       usual).
Proof. reflexivity. Qed.

(** C5, amended: no read has a deadline, and neither has `wait()`.  In
    every setting, a call of a script's function hangs in a read exactly
    when the child has taken the request, is silent at that exchange and
    keeps its output open, and then `terminate()` is never called: the
    log ends with the flush of the request.  The only other way to hang is
    in `wait()`, after `terminate()`, when the child lives on after
    SIGTERM.  A call that does not hang has called `terminate()` when the
    child was started, and ends with `terminate()` and `wait()` exactly
    when the child exits on SIGTERM. *)
Theorem blocked_only_by_silence
    (json_loads : string -> option json) (s : script) (e : setting)
    (rs : list reply) (now : Z) :
  let (o, w) := function json_loads s (start_in e rs now) in
  stuck_in_read rs (log w) = blocked o && negb (terminated (log w))
  /\ (if blocked o
      then if terminated (log w)
           then on_sigterm e = Lingers /\ ends_with_terminate (log w) = true
           else ends_with_flush (log w) = true
      else if binary e
           then terminated (log w) = true
                /\ ends_with_shutdown (log w) = exits (on_sigterm e)
           else log w = []).
Proof.
  facts json_loads s e rs now.
  split; [exact Hstuck|].
  destruct o as [v|v|x|]; cbn [blocked andb negb] in *;
    [| contradiction | | apply Hend];
    rewrite terminated_count, Hterminate, Hstuck.
  - destruct Hend as (-> & -> & -> & _). repeat split.
  - destruct x; try contradiction.
    + rewrite Hend in *. exact Hpopen.
    + destruct Hend as (-> & _ & Hend). split; [reflexivity|].
      destruct (ends_with_shutdown (log w));
        destruct Hend as (-> & _); reflexivity.
Qed.

(** ** The parameters of `initialize` *)

(** C8: in every run, the `initialize` request a script writes has the
    parameters `protocolVersion`, `capabilities` and `clientInfo` with
    `name` and `version` in five scripts, and lacks them in
    `debug_session.py` and `test_tool_execution.py`.  The other conjuncts
    are the run of `test_tool_execution` on a child that closes its output
    at once: the first request written is `initialize` with empty
    parameters. *)
Theorem initialize_params_by_script
    (json_loads : string -> option json) (s : script) (rs : list reply) (now : Z) :
  forallb (fun r => implb (is_initialize r)
                      (Bool.eqb (has_required_params r) (negb (sends_empty_params s))))
    (writes (log (snd (function json_loads s (start rs now))))) = true
  /\ hd_error (writes (log (snd (TestToolExecution.test_tool_execution
                                          (start closes_its_output now)))))
     = Some TestToolExecution.init_request
  /\ method_of TestToolExecution.init_request = Some (JStr "initialize")
  /\ params_of TestToolExecution.init_request = Some (JObj [])
  /\ has_required_params TestToolExecution.init_request = false.
Proof.
  split; [|repeat split].
  usual_facts json_loads s rs now. exact Hinit.
Qed.

(** ** Shutdown *)

(** The `try` statement of the scripts, whatever its body and its handler
    do: when control leaves it for good, `terminate()` was the last thing
    called but for `wait()`, which has returned, unless it is `wait()`
    that was interrupted. *)
Lemma finally_shutdown (body : M unit) (handler : exn -> M unit) (w : world) :
  let (o, w') := try_except_finally body handler shutdown w in
  match o with
  | Blocked => True
  | Raised KeyboardInterrupt =>
      exists p, past w' = Wait :: Terminate :: p \/ past w' = Terminate :: p
  | _ => exists p, past w' = Wait :: Terminate :: p
  end.
Proof.
  unfold try_except_finally, finally_, shutdown, bind, terminate, wait, emit.
  destruct (body w) as [o w1].
  destruct o as [a|v|x|];
    [| | destruct (is_Exception x) eqn:Hx;
         [destruct (handler x w1) as [o' w2]; destruct o' as [a'|v'|x'|]|] |];
    cbn [fst snd past env child clock];
    try exact I;
    match goal with
    | |- context [on_sigterm ?e] => destruct (on_sigterm e)
    end;
    try exact I;
    repeat match goal with
           | |- match ?x with _ => _ end => destruct x
           end;
    try exact I; eexists; try (left; reflexivity); try (right; reflexivity);
    reflexivity.
Qed.

(** C9, as stated, fails: the child of `test_mcp_server` answers, gets
    SIGTERM from `terminate()` and lives on; `wait()` has no timeout, and
    the user interrupts it.  The `KeyboardInterrupt` leaves the function
    and ends the interpreter; `wait()` has not returned, nothing has
    killed the child, and it is left running. *)
Lemma child_left_running_after_interrupted_wait :
  fst (function Decoder.decode test_mcp_py (start_in stubborn_child closes_its_output 0))
  = Raised KeyboardInterrupt
  /\ exit_code_in Decoder.decode stubborn_child test_mcp_py closes_its_output 0
     = Unhandled KeyboardInterrupt
  /\ ends_with_terminate
       (log (snd (function Decoder.decode test_mcp_py
                    (start_in stubborn_child closes_its_output 0))))
     = true
  /\ count is_wait
       (log (snd (function Decoder.decode test_mcp_py
                    (start_in stubborn_child closes_its_output 0))))
     = 0%nat.
Proof. repeat split. Qed.

(** C9, amended: in every setting and whatever the child does, when the
    call of a script's function returns, the last two things it did were
    `process.terminate()` and a `process.wait()` that returned: the child
    has exited.  When a `KeyboardInterrupt` leaves the function,
    `terminate()` has been called, once, and either `wait()` has returned
    after it, or it is `wait()` that was interrupted, as the last thing
    after `terminate()`: then the child is left running.  The only other
    exception that leaves the function is the one `Popen` raises when the
    program is not there, and then there is no child and nothing was
    done. *)
Theorem shutdown_before_return
    (json_loads : string -> option json) (s : script) (e : setting)
    (rs : list reply) (now : Z) :
  let (o, w) := function json_loads s (start_in e rs now) in
  match o with
  | Normal _ => ends_with_shutdown (log w) = true
  | Raised x =>
      if is_Exception x
      then x = FileNotFoundError /\ binary e = false /\ log w = []
      else x = KeyboardInterrupt
           /\ count is_terminate (log w) = 1%nat
           /\ (if ends_with_shutdown (log w)
               then on_sigterm e = Exits
               else on_sigterm e = LingersUntilInterrupt
                    /\ ends_with_terminate (log w) = true)
  | Returned _ => False
  | Blocked => True
  end.
Proof.
  facts json_loads s e rs now.
  destruct o as [v|v|x|]; cbn [blocked andb negb] in *.
  - apply Hend.
  - exact Hend.
  - destruct x; try contradiction; cbn [is_Exception].
    + rewrite Hend in *. auto.
    + destruct Hend as (Hb & _ & Hend). rewrite Hb, Hstuck in Hterminate.
      split; [reflexivity|]. split; [exact Hterminate|].
      destruct (ends_with_shutdown (log w)); tauto.
  - exact I.
Qed.

(** ** Exit codes *)

(** C3, as stated, fails: the server lets `create_block` through, the
    script prints that the permissions may be too permissive, and the
    process still exits with 0. *)
Lemma exit_zero_after_failed_permission_check :
  exit_code Decoder.decode test_permissions_py too_permissive 0 = Exit 0
  /\ says TestPermissions.permission_too_permissive
       (log (snd (run Decoder.decode test_permissions_py too_permissive 0)))
     = true
  /\ says TestPermissions.permission_working
       (log (snd (run Decoder.decode test_permissions_py too_permissive 0)))
     = false.
Proof. repeat split. Qed.

(** C3, amended: the exit code follows the way the call of the script's
    function ends, not what the checks printed.  In every setting, it is 1
    when the function returns `False`, which only `test_mcp_permissions`
    does, and when `Popen` raises because the program is not there, which
    all seven scripts let through with its traceback; it is 0 whenever the
    function returns anything else; a `KeyboardInterrupt` that leaves the
    function ends the interpreter on the signal; a call that hangs never
    exits; no run exits with 2. *)
Theorem exit_code_follows_return_value
    (json_loads : string -> option json) (s : script) (e : setting)
    (rs : list reply) (now : Z) :
  match fst (function json_loads s (at_call e s rs now)) with
  | Normal (RBool false) =>
      s = test_permissions_py /\ exit_code_in json_loads e s rs now = Exit 1
  | Normal _ => exit_code_in json_loads e s rs now = Exit 0
  | Raised x =>
      (x = KeyboardInterrupt
       /\ exit_code_in json_loads e s rs now = Unhandled KeyboardInterrupt)
      \/ (x = FileNotFoundError /\ binary e = false
          /\ exit_code_in json_loads e s rs now = Exit 1)
  | Returned _ => False
  | Blocked => exit_code_in json_loads e s rs now = Never
  end.
Proof.
  pose proof (function_outcome json_loads s (at_call e s rs now)) as H.
  unfold exit_code_in, run_in.
  destruct s;
    cbv beta iota zeta delta
      [main DebugSession.main TestComplete.main TestFinal.main TestMcp.main
       TestPermissions.main TestSimple.main TestToolExecution.main
       function at_call bind ret print emit sys_exit raise start_in
       child clock past env]
      in *;
    match goal with
    | |- context [fst (?f ?w)] => destruct (f w) as [o w']
    end;
    cbn [fst] in *;
    destruct o as [[|[|]]|v|x|]; cbn in H |- *;
    try discriminate; try contradiction; auto;
    (destruct H as [-> | [-> Hb]]; [left | right]; auto).
Qed.

(** ** Response ids *)

(** C1, as stated, fails: the server answers every request of
    `test_complete` with the id 7.  No exception is raised, the three
    steps run, and the tool call is reported as successful. *)
Lemma mismatched_ids_do_not_stop_test_complete :
  fst (TestComplete.test_complete (start always_id_7 0)) = Normal RNone
  /\ ids (log (snd (TestComplete.test_complete (start always_id_7 0))))
     = [Some (JInt 1); Some (JInt 2); Some (JInt 3)]
  /\ response_ids (log (snd (TestComplete.test_complete (start always_id_7 0))))
     = [Some (JInt 7); Some (JInt 7); Some (JInt 7)]
  /\ printed (log (snd (TestComplete.test_complete (start always_id_7 0))))
     = ["✓ Initialize: OK"; "✓ Session created: {session_id}";
        "✓ Tool execution successful!";
        "  Found {len(result['files'])} files/directories"].
Proof. repeat split. Qed.

Lemma assoc_with_id (f : json -> json) (k : string) (kvs : list (string * json)) :
  String.eqb k "id" = false ->
  assoc k (map (fun kv => if String.eqb (fst kv) "id" then (fst kv, f (snd kv)) else kv)
             kvs)
  = assoc k kvs.
Proof.
  intros Hk. induction kvs as [|[k' v] kvs IH]; [reflexivity|].
  cbn [map fst snd assoc].
  destruct (String.eqb k' "id") eqn:Hid; cbn [assoc].
  - destruct (String.eqb k k') eqn:Hkk'; [|exact IH].
    apply String.eqb_eq in Hkk'. subst k'. congruence.
  - destruct (String.eqb k k'); [reflexivity | exact IH].
Qed.

Lemma contains_with_id f k j :
  String.eqb k "id" = false -> contains k (with_id f j) = contains k j.
Proof.
  intros Hk. destruct j; try reflexivity.
  cbn [with_id contains]. unfold has_key. rewrite assoc_with_id by exact Hk.
  reflexivity.
Qed.

Lemma getitem_with_id f k j :
  String.eqb k "id" = false -> getitem (with_id f j) k = getitem j k.
Proof.
  intros Hk. destruct j; try reflexivity.
  cbn [with_id getitem]. rewrite assoc_with_id by exact Hk. reflexivity.
Qed.

Lemma get_with_id f k d j :
  String.eqb k "id" = false -> get (with_id f j) k d = get j k d.
Proof.
  intros Hk. destruct j; try reflexivity.
  cbn [with_id get]. rewrite assoc_with_id by exact Hk. reflexivity.
Qed.

Lemma truthy_relabel_line f l : truthy (relabel_line f l) = truthy l.
Proof. destruct l; reflexivity. Qed.

Lemma writes_app (a b : list event) : writes (a ++ b) = writes a ++ writes b.
Proof.
  induction a as [|e a IH]; [reflexivity|].
  destruct e; cbn [app writes]; rewrite IH; reflexivity.
Qed.

Lemma lines_app (a b : list event) : lines (a ++ b) = lines a ++ lines b.
Proof.
  induction a as [|e a IH]; [reflexivity|].
  destruct e; cbn [app lines]; rewrite IH; reflexivity.
Qed.

Lemma writes_rev (l : list event) : writes (rev l) = rev (writes l).
Proof.
  induction l as [|e l IH]; [reflexivity|].
  cbn [rev]. rewrite writes_app, IH. destruct e; cbn [writes rev app];
    rewrite ?app_nil_r; reflexivity.
Qed.

Lemma lines_rev (l : list event) : lines (rev l) = rev (lines l).
Proof.
  induction l as [|e l IH]; [reflexivity|].
  cbn [rev]. rewrite lines_app, IH. destruct e; cbn [lines rev app];
    rewrite ?app_nil_r; reflexivity.
Qed.

Lemma printed_lines (l : list event) : printed l = map fst (lines l).
Proof.
  induction l as [|e l IH]; [reflexivity|].
  destruct e; cbn [printed lines map fst]; rewrite ?IH; reflexivity.
Qed.

Lemma alike_rev {A} (R : A -> A -> Prop) (xs ys : list A) :
  Forall2 R xs ys -> Forall2 R (rev xs) (rev ys).
Proof.
  induction 1 as [|x y xs ys Hxy H IH]; [constructor|].
  cbn [rev]. apply Forall2_app; [exact IH | repeat constructor; exact Hxy].
Qed.

Lemma alike_printed (f : json -> json) (xs ys : list (string * list arg)) :
  Forall2 (line_alike f) xs ys -> map fst ys = map fst xs.
Proof.
  induction 1 as [|x y xs ys [Hxy _] H IH]; [reflexivity|].
  cbn [map]. rewrite Hxy, IH. reflexivity.
Qed.

(** *** Two runs side by side

    The first run talks to a child `rs`, the second to the child that
    gives the same answers under other ids.  The two worlds stay related:
    the second child is the first one relabelled, the requests written so
    far are the same and the lines printed so far are alike. *)

Section SideBySide.

Variable f : json -> json.

Lemma sim_bind {A B} (RA : A -> A -> Prop) (RB : B -> B -> Prop)
    (m1 m2 : M A) (k1 k2 : A -> M B) :
  sim f RA m1 m2 ->
  (forall a1 a2, RA a1 a2 -> sim f RB (k1 a1) (k2 a2)) ->
  sim f RB (bind m1 k1) (bind m2 k2).
Proof.
  intros Hm Hk w1 w2 Hw. unfold bind.
  destruct (Hm w1 w2 Hw) as [Ho Hw'].
  destruct (m1 w1) as [o1 w1'], (m2 w2) as [o2 w2']. cbn [fst snd] in *.
  destruct o1, o2; cbn [ends_alike] in Ho; try contradiction;
    try (split; [exact Ho | exact Hw']).
  apply Hk; assumption.
Qed.

Lemma sim_ret {A} (a : A) : sim f eq (ret a) (ret a).
Proof. intros w1 w2 Hw. split; [reflexivity | exact Hw]. Qed.

Lemma sim_return {A} (v : pyret) : sim f (@eq A) (return_ v) (return_ v).
Proof. intros w1 w2 Hw. split; [reflexivity | exact Hw]. Qed.

Lemma sim_eval {A} (r : res A) : sim f eq (eval r) (eval r).
Proof. intros w1 w2 Hw. destruct r; (split; [reflexivity | exact Hw]). Qed.

Lemma sim_local {A} (x : option A) : sim f eq (local x) (local x).
Proof. intros w1 w2 Hw. destruct x; (split; [reflexivity | exact Hw]). Qed.

Lemma sim_loads_strip (l : line) :
  sim f (same_answer f) (eval (loads_strip l)) (eval (loads_strip (relabel_line f l))).
Proof. intros w1 w2 Hw. destruct l; (split; [reflexivity | exact Hw]). Qed.

Lemma sim_emit (e1 e2 : event) :
  writes [e1] = writes [e2] ->
  Forall2 (line_alike f) (lines [e1]) (lines [e2]) ->
  sim f eq (emit e1) (emit e2).
Proof.
  intros Hwr Hpr w1 w2 (Hc & Ht & He & Hws & Hps). split; [reflexivity|].
  unfold emit, akin; cbn [fst snd child clock past env].
  change (e2 :: past w2) with ([e2] ++ past w2).
  change (e1 :: past w1) with ([e1] ++ past w1).
  rewrite !writes_app, !lines_app, Hwr, Hws.
  repeat split; try assumption.
  apply Forall2_app; assumption.
Qed.

Lemma sim_popen (argv : list string) : sim f eq (popen argv) (popen argv).
Proof.
  intros w1 w2 Hw. pose proof Hw as (Hc & Ht & He & Hws & Hps). unfold popen.
  rewrite He. destruct (binary (env w1)).
  - apply (sim_emit (Popen argv) (Popen argv)); [reflexivity | constructor | exact Hw].
  - split; [reflexivity | exact Hw].
Qed.

Lemma sim_wait : sim f eq wait wait.
Proof.
  intros w1 w2 Hw. pose proof Hw as (Hc & Ht & He & Hws & Hps). unfold wait.
  rewrite He. destruct (on_sigterm (env w1)).
  - apply (sim_emit Wait Wait); [reflexivity | constructor | exact Hw].
  - split; [exact I | exact Hw].
  - split; [reflexivity | exact Hw].
Qed.

Lemma sim_write (request : json) : sim f eq (stdin_write request) (stdin_write request).
Proof.
  intros w1 w2 Hw. pose proof Hw as (Hc & Ht & He & Hws & Hps). unfold stdin_write.
  rewrite Hc. destruct (child w1) as [|[| | |l|] rest]; cbn [map relabel];
    try (apply (sim_emit (Write request) (Write request));
         [reflexivity | constructor | exact Hw]).
  - split; [reflexivity | exact Hw].
  - split; [reflexivity|]. unfold akin; cbn [snd child clock past env]. auto.
Qed.

Lemma sim_readline : sim f (same_line f) stdout_readline stdout_readline.
Proof.
  intros w1 w2 (Hc & Ht & He & Hws & Hps). unfold stdout_readline.
  rewrite Hc. destruct (child w1) as [|[| | |l|] rest]; cbn [map relabel];
    unfold akin, same_line;
    cbn [fst snd ends_alike child clock past env writes lines map];
    repeat split; auto.
Qed.

Lemma sim_time : sim f eq time_time time_time.
Proof.
  intros w1 w2 Hw. pose proof Hw as (Hc & Ht & He & Hws & Hps).
  unfold time_time; cbn [fst snd ends_alike]. auto.
Qed.

Lemma sim_for_each {A} (xs : list A) (b1 b2 : A -> M unit) :
  (forall x, sim f eq (b1 x) (b2 x)) -> sim f eq (for_each xs b1) (for_each xs b2).
Proof.
  intros Hb. induction xs as [|x xs IH]; cbn [for_each].
  - apply sim_ret.
  - apply (sim_bind eq); [apply Hb | intros; exact IH].
Qed.

Lemma sim_try_except (b1 b2 h1 h2 : M unit) :
  sim f eq b1 b2 -> sim f eq h1 h2 -> sim f eq (try_except b1 h1) (try_except b2 h2).
Proof.
  intros Hb Hh w1 w2 Hw. unfold try_except.
  destruct (Hb w1 w2 Hw) as [Ho Hw'].
  destruct (b1 w1) as [o1 w1'], (b2 w2) as [o2 w2']. cbn [fst snd] in *.
  destruct o1, o2; cbn [ends_alike] in Ho; try contradiction;
    try (split; [exact Ho | exact Hw']).
  apply Hh; exact Hw'.
Qed.

Lemma sim_finally (p1 p2 : outcome unit * world) (c1 c2 : M unit) :
  ends_alike eq (fst p1) (fst p2) -> akin f (snd p1) (snd p2) -> sim f eq c1 c2 ->
  ends_alike eq (fst (finally_ p1 c1)) (fst (finally_ p2 c2))
  /\ akin f (snd (finally_ p1 c1)) (snd (finally_ p2 c2)).
Proof.
  destruct p1 as [o1 u1], p2 as [o2 u2]. cbn [fst snd]. intros Ho Hu Hc.
  unfold finally_.
  destruct (Hc u1 u2 Hu) as [Hco Hcw].
  destruct (c1 u1) as [q1 v1], (c2 u2) as [q2 v2]. cbn [fst snd] in *.
  destruct o1, o2; cbn [ends_alike] in Ho; try contradiction;
    try (split; [exact I | exact Hu]);
    destruct q1, q2; cbn [ends_alike] in Hco; try contradiction;
    cbn [fst snd ends_alike]; auto.
Qed.

Lemma sim_try_except_finally (b1 b2 : M unit) (h1 h2 : exn -> M unit) (c1 c2 : M unit) :
  sim f eq b1 b2 -> (forall e, sim f eq (h1 e) (h2 e)) -> sim f eq c1 c2 ->
  sim f eq (try_except_finally b1 h1 c1) (try_except_finally b2 h2 c2).
Proof.
  intros Hb Hh Hc w1 w2 Hw. unfold try_except_finally.
  destruct (Hb w1 w2 Hw) as [Ho Hw'].
  destruct (b1 w1) as [o1 w1'], (b2 w2) as [o2 w2']. cbn [fst snd] in *.
  apply sim_finally; [| |exact Hc].
  - destruct o1 as [a1|v1|e1|], o2 as [a2|v2|e2|]; cbn [ends_alike] in Ho;
      try contradiction; cbn [fst ends_alike]; auto.
    subst e2. destruct (is_Exception e1); [|reflexivity].
    apply Hh; exact Hw'.
  - destruct o1 as [a1|v1|e1|], o2 as [a2|v2|e2|]; cbn [ends_alike] in Ho;
      try contradiction; cbn [snd]; auto.
    subst e2. destruct (is_Exception e1); [|exact Hw'].
    apply Hh; exact Hw'.
Qed.

Lemma sim_call (b1 b2 : M unit) : sim f eq b1 b2 -> sim f eq (call b1) (call b2).
Proof.
  intros Hb w1 w2 Hw. unfold call.
  destruct (Hb w1 w2 Hw) as [Ho Hw'].
  destruct (b1 w1) as [o1 w1'], (b2 w2) as [o2 w2']. cbn [fst snd] in *.
  destruct o1, o2; cbn [ends_alike] in Ho; try contradiction;
    cbn [fst snd ends_alike]; auto.
Qed.

End SideBySide.

(** Once a line or an answer of the second run is known to be the
    relabelled line or answer of the first, what the script asks of it is
    what it asks of the first. *)
Ltac alike :=
  repeat match goal with
         | H : same_line _ _ _ |- _ => unfold same_line in H
         | H : same_answer _ _ _ |- _ => unfold same_answer in H
         end;
  subst;
  rewrite ?truthy_relabel_line;
  rewrite ?contains_with_id, ?getitem_with_id, ?get_with_id by reflexivity.

(** The lines of two events are alike: each value shown is the same in
    both, or the second is the first relabelled. *)
Ltac shown_alike :=
  cbn [lines];
  repeat first
    [ apply Forall2_nil
    | apply Forall2_cons
    | split; [reflexivity|]
    | left; reflexivity
    | right; reflexivity ].

Ltac side_by_side :=
  lazymatch goal with
  | |- sim _ _ (bind _ _) (bind _ _) =>
      eapply sim_bind; [side_by_side | intros; alike; side_by_side]
  | |- sim _ _ (if ?c then _ else _) _ => destruct c; side_by_side
  | |- sim _ _ (try_except_finally _ _ _) _ =>
      apply sim_try_except_finally; [side_by_side | intros; side_by_side | side_by_side]
  | |- sim _ _ (try_except _ _) _ => apply sim_try_except; side_by_side
  | |- sim _ _ (for_each _ _) _ =>
      apply sim_for_each; intros;
      unfold TestSimple.print_tool, TestPermissions.print_tool; side_by_side
  | |- sim _ _ (call _) _ => apply sim_call; side_by_side
  | |- sim _ _ (eval (loads_strip _)) _ => apply sim_loads_strip
  | |- sim _ _ (eval _) _ => apply sim_eval
  | |- sim _ _ (local _) _ => apply sim_local
  | |- sim _ _ (ret _) _ => apply sim_ret
  | |- sim _ _ (return_ _) _ => apply sim_return
  | |- sim _ _ stdout_readline _ => apply sim_readline
  | |- sim _ _ (stdin_write _) _ => apply sim_write
  | |- sim _ _ time_time _ => apply sim_time
  | |- sim _ _ (popen _) _ => apply sim_popen
  | |- sim _ _ wait _ => apply sim_wait
  | |- sim _ _ shutdown _ => unfold shutdown; side_by_side
  | |- sim _ _ _ _ =>
      unfold print, print_exc, stdin_flush, terminate;
      apply sim_emit; [reflexivity | shown_alike]
  end.

Lemma function_side_by_side
    (f : json -> json) (json_loads : string -> option json) (s : script) :
  sim f eq (function json_loads s) (function json_loads s).
Proof.
  destruct s;
    unfold function, DebugSession.debug_session, TestComplete.test_complete,
      TestFinal.test_mcp, TestMcp.test_mcp_server,
      TestPermissions.test_mcp_permissions, TestPermissions.test1_initialize,
      TestPermissions.test2_list_tools, TestPermissions.test3_create_block,
      TestPermissions.test4_list_blocks,
      TestSimple.test_basic_functionality,
      TestToolExecution.test_tool_execution;
    side_by_side.
Qed.

(** C1, amended: no script compares the id of a response with the id of
    the request it follows, and none raises `IdMismatchError`.  In every
    setting, replacing the ids of the responses by any others changes
    neither how the call of a script's function ends, nor the requests it
    writes, nor which `print` statements it runs, in which order.  The
    lines printed show the same values, except that where a line shows a
    response, or the raw line read, it shows it with the other id. *)
Theorem response_id_is_never_compared
    (json_loads : string -> option json) (s : script) (e : setting)
    (rs : list reply) (now : Z) (f : json -> json) :
  fst (function json_loads s (start_in e (map (relabel f) rs) now))
  = fst (function json_loads s (start_in e rs now))
  /\ writes (log (snd (function json_loads s (start_in e (map (relabel f) rs) now))))
     = writes (log (snd (function json_loads s (start_in e rs now))))
  /\ printed (log (snd (function json_loads s (start_in e (map (relabel f) rs) now))))
     = printed (log (snd (function json_loads s (start_in e rs now))))
  /\ Forall2 (line_alike f)
       (lines (log (snd (function json_loads s (start_in e rs now)))))
       (lines (log (snd (function json_loads s
                           (start_in e (map (relabel f) rs) now))))).
Proof.
  destruct (function_side_by_side f json_loads s
              (start_in e rs now) (start_in e (map (relabel f) rs) now))
    as [Ho (_ & _ & _ & Hw & Hp)].
  { repeat split. constructor. }
  destruct (function json_loads s (start_in e rs now)) as [o1 w1].
  destruct (function json_loads s (start_in e (map (relabel f) rs) now)) as [o2 w2].
  cbn [fst snd] in *. unfold log.
  rewrite !printed_lines, !rev_append_rev, !app_nil_r, !writes_rev, !lines_rev, Hw.
  apply alike_rev in Hp.
  repeat split.
  - destruct o1, o2; cbn [ends_alike] in Ho; try contradiction; congruence.
  - apply (alike_printed f); exact Hp.
  - exact Hp.
Qed.

(** The ids can be seen in what is printed: `test_mcp_server` shows each
    response as it came. *)
Example shown_response_carries_its_id :
  lines (log (snd (TestMcp.test_mcp_server (start [answer 7 initialized] 0))))
  = [("Sending initialize request...", []);
     ("Initialize response: {json.dumps(response, indent=2)}",
      [AJson (JObj [("jsonrpc", JStr "2.0"); ("id", JInt 7); ("result", initialized)])]);
     ("\nSending tools/list request...", []);
     ("Error: {e}", [AExn BrokenPipeError])].
Proof. reflexivity. Qed.

(** ** The two permission checks *)

Ltac using_equations :=
  repeat (progress (repeat match goal with
                           | H : assoc _ _ = _ |- _ => rewrite H
                           | H : contains _ _ = _ |- _ => rewrite H
                           end); exec).

Ltac paths_with_equations :=
  exec; using_equations;
  repeat (first [loop | fork]; exec; using_equations).

(** For any response that is a JSON object, test 3 prints the line that
    reports the permission system as working exactly when the response
    reports a denial for lack of permission, and test 4 prints the line
    that reports `list_blocks` as successful exactly when the response has
    a `result` and no `error`: the `error` is looked for first. *)
Lemma verdicts_on_any_object
    (json_loads : string -> option json)
    (kvs : list (string * json)) (rest : list reply) (now : Z) :
  says TestPermissions.permission_working
    (log (snd (TestPermissions.test3_create_block
                 (start (Says (Encodes (JObj kvs)) :: rest) now))))
  = denied_for_permission kvs
  /\ says TestPermissions.list_blocks_succeeded
       (log (snd (TestPermissions.test4_list_blocks json_loads
                    (start (Says (Encodes (JObj kvs)) :: rest) now))))
     = (has_key "result" kvs && negb (has_key "error" kvs)).
Proof.
  split.
  - unfold denied_for_permission.
    destruct (assoc "error" kvs) as [[| | | | | |error]|] eqn:He;
      try (paths_with_equations; reflexivity).
    destruct (assoc "message" error) as [[| | | |message| |]|] eqn:Hm;
      try (paths_with_equations; reflexivity).
  - unfold has_key.
    destruct (assoc "error" kvs) as [error|] eqn:He;
      destruct (assoc "result" kvs) as [result|] eqn:Hr;
      paths_with_equations; reflexivity.
Qed.

(** A document with a `result` and an `error` is no response of the
    protocol; on it test 4 takes the `error` branch. *)
Example result_with_error_is_reported_as_error :
  well_formed result_and_error = false
  /\ printed (log (snd (TestPermissions.test4_list_blocks Decoder.decode
                          (start [Says (Encodes (JObj result_and_error))] 0))))
     = ["\n4. Testing list_blocks tool (should work with read permission)...";
        TestPermissions.list_blocks_error].
Proof. repeat split. Qed.

(** C4: on a response of the protocol, which has exactly one of `result`
    and `error`, test 3 (`create_block`, not permitted) prints its line of
    success exactly when the response has an error whose message has
    `permission` in it, in any case of the letters, and test 4
    (`list_blocks`, permitted) prints its line of success exactly when the
    response has a `result`. *)
Theorem permission_verdicts
    (json_loads : string -> option json)
    (kvs : list (string * json)) (rest : list reply) (now : Z) :
  well_formed kvs = true ->
  says TestPermissions.permission_working
    (log (snd (TestPermissions.test3_create_block
                 (start (Says (Encodes (JObj kvs)) :: rest) now))))
  = denied_for_permission kvs
  /\ says TestPermissions.list_blocks_succeeded
       (log (snd (TestPermissions.test4_list_blocks json_loads
                    (start (Says (Encodes (JObj kvs)) :: rest) now))))
     = has_key "result" kvs.
Proof.
  intros Hwf.
  destruct (verdicts_on_any_object json_loads kvs rest now) as [H3 H4].
  split; [exact H3|].
  rewrite H4. unfold well_formed in Hwf.
  destruct (has_key "result" kvs), (has_key "error" kvs);
    try reflexivity; discriminate Hwf.
Qed.

(** The theorem at work: a denial for lack of permission. *)
Lemma permission_verdicts_on_a_denial :
  well_formed
    [("jsonrpc", JStr "2.0"); ("id", JInt 3);
     ("error", JObj [("code", JInt (-32001));
                     ("message", JStr "Permission denied: write access required")])]
  = true
  /\ says TestPermissions.permission_working
       (log (snd (TestPermissions.test3_create_block
                    (start [Says (Encodes (JObj
                       [("jsonrpc", JStr "2.0"); ("id", JInt 3);
                        ("error", JObj [("code", JInt (-32001));
                                        ("message",
                                         JStr "Permission denied: write access required")])]))]
                       0))))
     = denied_for_permission
         [("jsonrpc", JStr "2.0"); ("id", JInt 3);
          ("error", JObj [("code", JInt (-32001));
                          ("message", JStr "Permission denied: write access required")])]
  /\ says TestPermissions.list_blocks_succeeded
       (log (snd (TestPermissions.test4_list_blocks Decoder.decode
                    (start [Says (Encodes (JObj
                       [("jsonrpc", JStr "2.0"); ("id", JInt 3);
                        ("error", JObj [("code", JInt (-32001));
                                        ("message",
                                         JStr "Permission denied: write access required")])]))]
                       0))))
     = has_key "result"
         [("jsonrpc", JStr "2.0"); ("id", JInt 3);
          ("error", JObj [("code", JInt (-32001));
                          ("message", JStr "Permission denied: write access required")])].
Proof.
  split; [reflexivity|].
  apply (permission_verdicts Decoder.decode
           [("jsonrpc", JStr "2.0"); ("id", JInt 3);
            ("error", JObj [("code", JInt (-32001));
                            ("message", JStr "Permission denied: write access required")])]
           [] 0).
  reflexivity.
Defined.

(** ** A failed `session/create` *)

(** C6, as stated, fails: the server answers `session/create` with an
    error.  `test_complete` does not run the tool call, but it does not
    mark it as skipped either: it prints the failure of the session and
    nothing about the step it left out. *)
Lemma skipped_step_is_not_marked :
  methods (log (snd (TestComplete.test_complete (start no_session 0))))
  = [Some (JStr "initialize"); Some (JStr "session/create")]
  /\ printed (log (snd (TestComplete.test_complete (start no_session 0))))
     = ["✓ Initialize: OK"; "✗ Session creation failed: {session_response}"]
  /\ mentions_skip (log (snd (TestComplete.test_complete (start no_session 0))))
     = false.
Proof. repeat split. Qed.

(** C6, amended: in the three scripts that create a session, when the
    answer to `session/create` is an object without a `result`, no step
    after it is executed: at most the two requests `initialize` and
    `session/create` are written, and none of the lines of the later
    steps is printed, neither one that reports success nor one that
    reports failure.  The step left out is not marked: no `print` of the
    run has the word `skip` in its text. *)
Theorem no_step_after_failed_session_create
    (json_loads : string -> option json) (s : script)
    (r1 : reply) (kvs : list (string * json)) (rest : list reply) (now : Z) :
  In s [test_complete_py; test_final_py; test_tool_execution_py] ->
  assoc "result" kvs = None ->
  let l := log (snd (function json_loads s
                       (start (r1 :: Says (Encodes (JObj kvs)) :: rest) now))) in
  (length (writes l) <=? 2)%nat = true
  /\ forallb (fun text => negb (says text l)) (lines_after_session s) = true
  /\ mentions_skip l = false.
Proof.
  intros Hs Hkvs l; subst l.
  destruct s; cbn [In] in Hs;
    try (exfalso; intuition discriminate); clear Hs;
    paths_with_equations; repeat split; reflexivity.
Qed.

(** The theorem at work: `test_final` against a server that refuses to
    create a session. *)
Lemma no_step_after_failed_session_create_in_test_final :
  (length (writes (log (snd (function Decoder.decode test_final_py
                               (start no_session 0))))) <=? 2)%nat = true
  /\ forallb
       (fun text =>
          negb (says text (log (snd (function Decoder.decode test_final_py
                                       (start no_session 0))))))
       (lines_after_session test_final_py)
     = true
  /\ mentions_skip (log (snd (function Decoder.decode test_final_py
                                (start no_session 0))))
     = false.
Proof.
  apply (no_step_after_failed_session_create Decoder.decode test_final_py
           (answer 1 initialized)
           [("jsonrpc", JStr "2.0"); ("id", JInt 2);
            ("error", JObj [("code", JInt (-32602));
                            ("message", JStr "missing field user_id")])]
           [answer 3 (JObj [("files", JArr [])])] 0).
  - cbn [In]. tauto.
  - reflexivity.
Defined.

(** ** The summary of `test_basic_functionality` *)

(** The failing input of C10: `tools/list` is answered with an error, and
    the first of the three summary lines is printed all the same, before
    the second one reads the unbound name. *)
Example first_summary_line_without_tools :
  printed (log (snd (TestSimple.test_basic_functionality (start no_tools_list 0))))
  = ["🧪 Testing Forge MCP Server\n";
     "1. Testing initialization...";
     "   ✓ Server: {server_info['name']} v{server_info['version']}";
     "   ✓ Protocol: {response['result']['protocolVersion']}";
     "\n2. Testing tools list...";
     "   ✗ Failed: {response}";
     TestSimple.summary_working;
     "❌ Error: {e}"]
  /\ says TestSimple.summary_working
       (log (snd (TestSimple.test_basic_functionality (start no_tools_list 0))))
     = true.
Proof. repeat split. Qed.

(** Symbolic execution on a conversation whose first answers are given:
    the lookups in them are computed. *)
Ltac lookups :=
  repeat (progress (repeat match goal with
                           | H : assoc _ _ = _ |- _ => rewrite H
                           | H : contains _ _ = _ |- _ => rewrite H
                           end;
                    cbn [assoc String.eqb Ascii.eqb Bool.eqb andb]);
          exec).

Ltac paths_with_lookups :=
  exec; lookups; repeat (first [loop | fork]; exec; lookups).

(** C10, on the code: after a good answer to `initialize`, whatever the
    answer to `tools/list`, the function returns `None` after the
    shutdown.  When the answer has no `result`, the failure branch of
    test 2 prints the failure and goes on, where the failure branch of
    test 1 returns: the first summary line, which tells that the basic
    functionality is working, is printed; the second one raises
    `UnboundLocalError` (a `NameError`) on the name `tools`; the handler
    reports it and prints its traceback; the last two summary lines are
    not printed.  When the answer is a document that `in` cannot search
    (`null`, a number, a boolean), the test for `result` raises and no
    summary line is printed. *)
Theorem summary_after_failed_tools_list
    (j : json) (rest : list reply) (now : Z) :
  let (o, w) := TestSimple.test_basic_functionality
                  (start (answer 1 initialized :: Says (Encodes j) :: rest) now) in
  o = Normal RNone
  /\ ends_with_shutdown (log w) = true
  /\ match contains "result" j with
     | Ok true => True
     | Ok false =>
         says TestSimple.summary_working (log w) = true
         /\ reported (log w) = [UnboundLocalError]
         /\ existsb is_name_error_traceback (log w) = true
         /\ says TestSimple.summary_available (log w) = false
         /\ says TestSimple.summary_ready (log w) = false
     | Err x =>
         says TestSimple.summary_working (log w) = false
         /\ reported (log w) = [x]
         /\ says TestSimple.summary_available (log w) = false
         /\ says TestSimple.summary_ready (log w) = false
     end.
Proof.
  unfold answer, initialized.
  destruct (contains "result" j) as [[|]|x] eqn:Hj.
  - paths_with_lookups; in_order; cbn [ends_with_shutdown];
      rewrite ?ends_with_shutdown_tool_lines; repeat split; reflexivity.
  - paths_with_lookups; repeat split; reflexivity.
  - pose proof (contains_throws "result" j) as Hx. rewrite Hj in Hx.
    destruct Hx as [<- | []].
    paths_with_lookups; repeat split; reflexivity.
Qed.

(** ** The requests are fixed in advance *)

(** X1.  What a script writes to the child does not depend on what the
    child answers: the requests written are the first ones of the
    script's fixed list of requests, in order; the answers decide only how
    many of them are written.  No value taken from a response (such as
    the session id) goes into a later request; the only value that is not
    a literal is the time in the `session/create` request of
    `test_final.py`. *)
Theorem requests_are_fixed_in_advance
    (json_loads : string -> option json) (s : script) (rs : list reply) (now : Z) :
  writes (log (snd (function json_loads s (start rs now))))
  = firstn (length (writes (log (snd (function json_loads s (start rs now))))))
      (requests s now).
Proof. usual_facts json_loads s rs now. exact Hrequests. Qed.

(** ** The calls on the pipes *)

(** X2.  In every run of every script, each request written is flushed at
    once, and each `readline()` comes right after a flush: the calls on
    the pipes come in triples write, flush, read with nothing in
    between. *)
Theorem write_flush_read
    (json_loads : string -> option json) (s : script) (rs : list reply) (now : Z) :
  write_then_flush (log (snd (function json_loads s (start rs now)))) = true
  /\ read_after_flush false (log (snd (function json_loads s (start rs now)))) = true.
Proof. usual_facts json_loads s rs now. split; assumption. Qed.

(** X3.  Where a call stops, in every setting.  When the function
    returns, every request written was followed by a read that returned,
    but for one whose read raised `UnicodeDecodeError`, which the handler
    reported.  When the call hangs before `terminate()`, it hangs in a
    read: exactly one request was written and not followed by a read that
    returned, and the flush of that request is the last thing done; when
    it hangs after `terminate()`, it hangs in `wait()`.  In no run is more
    than one request written and not followed by a read that returned. *)
Theorem reads_completed
    (json_loads : string -> option json) (s : script) (e : setting)
    (rs : list reply) (now : Z) :
  match function json_loads s (start_in e rs now) with
  | (Normal _, w) =>
      length (writes (log w))
      = (length (reads (log w))
         + length (filter is_unicode_error (reported (log w))))%nat
  | (Blocked, w) =>
      if terminated (log w)
      then ends_with_terminate (log w) = true
      else length (writes (log w)) = S (length (reads (log w)))
           /\ ends_with_flush (log w) = true
  | (_, w) => (length (writes (log w)) <=? S (length (reads (log w))))%nat = true
  end.
Proof.
  facts json_loads s e rs now.
  destruct o as [v|v|x|]; cbn [blocked andb] in *.
  - apply Hend.
  - contradiction.
  - destruct x; try contradiction.
    + rewrite Hend in Hpopen. rewrite Hpopen. reflexivity.
    + apply Hend.
  - destruct Hend as (_ & Hend).
    destruct (terminated (log w)); [apply Hend|].
    split; [|exact Hend].
    unfold stuck_in_read in Hstuck. cbn [negb] in Hstuck.
    apply andb_prop in Hstuck. apply Nat.eqb_eq. apply Hstuck.
Qed.

(** ** The child process *)

(** X4.  The function of every script starts the child
    `./target/debug/forge --mcp` as the first thing it does, and starts no
    other process. *)
Theorem one_child_started_first
    (json_loads : string -> option json) (s : script) (rs : list reply) (now : Z) :
  hd_error (log (snd (function json_loads s (start rs now)))) = Some (Popen forge_mcp)
  /\ count is_popen (log (snd (function json_loads s (start rs now)))) = 1%nat.
Proof. usual_facts json_loads s rs now. exact Hpopen. Qed.

(** X5.  In every setting, `terminate()` is called exactly once in every
    run in which the child was started and which does not hang in a read,
    whatever happened in the body (fall-through, `return`, handled
    exception, interrupt), and never in the other runs; `wait()` returns
    exactly once in those of these runs in which the child exits on
    SIGTERM, and in no other: there it hangs or is interrupted. *)
Theorem shutdown_exactly_once
    (json_loads : string -> option json) (s : script) (e : setting)
    (rs : list reply) (now : Z) :
  count is_terminate (log (snd (function json_loads s (start_in e rs now))))
  = (if binary e
        && negb (stuck_in_read rs
                   (log (snd (function json_loads s (start_in e rs now)))))
     then 1 else 0)%nat
  /\ count is_wait (log (snd (function json_loads s (start_in e rs now))))
     = (if binary e
           && negb (stuck_in_read rs
                      (log (snd (function json_loads s (start_in e rs now)))))
           && exits (on_sigterm e)
        then 1 else 0)%nat.
Proof. facts json_loads s e rs now. split; assumption. Qed.

(** ** The handlers *)

(** X6.  The handler of a script runs at most once in a run; the line it
    prints is the last line the function prints; and the traceback is
    printed for the exception reported, in the three scripts that call
    `traceback.print_exc()`, and never in the other four. *)
Theorem one_report_at_the_end
    (json_loads : string -> option json) (s : script) (rs : list reply) (now : Z) :
  (length (reported (log (snd (function json_loads s (start rs now))))) <=? 1)%nat = true
  /\ report_is_last (log (snd (function json_loads s (start rs now)))) = true
  /\ tracebacks (log (snd (function json_loads s (start rs now))))
     = (if prints_traceback s
        then reported (log (snd (function json_loads s (start rs now))))
        else []).
Proof. usual_facts json_loads s rs now. repeat split; assumption. Qed.

(** X7.  Which exceptions a handler can come to report, in every
    setting: none outside `may_report`.  Every script can report the
    `BrokenPipeError` of a write and the `UnicodeDecodeError` of a read;
    `debug_session.py`, which decodes nothing, reports nothing else;
    `test_mcp.py` reports besides only what `json.loads` raises
    (`JSONDecodeError`, `RecursionError`, `ValueError`); a `KeyError` or a
    `TypeError` is reported by the other five scripts only, an
    `AttributeError` only by the three that call `.get` or `.lower`, an
    `UnboundLocalError` only by `test_simple.py`, and an `IndexError` by
    none: the one subscript `[0]` is under the bare `except`. *)
Theorem exceptions_reported
    (json_loads : string -> option json) (s : script) (e : setting)
    (rs : list reply) (now : Z) :
  forallb (may_report s)
    (reported (log (snd (function json_loads s (start_in e rs now)))))
  = true.
Proof. facts json_loads s e rs now. exact Hmay. Qed.

Lemma stuck_in_read_silent (rs : list reply) (l : list event) :
  stuck_in_read rs l = true -> existsb silent rs = true.
Proof.
  unfold stuck_in_read. intros H. apply andb_prop in H. destruct H as [_ H].
  destruct (nth_error rs (length (reads l))) as [[| | | |]|] eqn:Hn;
    try discriminate H.
  apply existsb_exists. exists Silent. split; [|reflexivity].
  apply nth_error_In with (n := length (reads l)). exact Hn.
Qed.

(** X8.  The function of every script returns, whatever the child
    answers (nothing, garbage, bytes that are no text, a document of any
    shape) and whether the child takes the requests or not, as long as the
    program is there to be started, the child exits on SIGTERM, the child
    does not stay silent with its output open and the user does not
    interrupt the script. *)
Theorem function_returns
    (json_loads : string -> option json) (s : script) (e : setting)
    (rs : list reply) (now : Z) :
  binary e = true ->
  on_sigterm e = Exits ->
  existsb silent rs = false ->
  existsb interrupt rs = false ->
  exists v, fst (function json_loads s (start_in e rs now)) = Normal v.
Proof.
  intros Hbinary Hexits Hsilent Hinterrupt.
  facts json_loads s e rs now.
  destruct o as [v|v|x|]; cbn [blocked andb] in *.
  - exists v; reflexivity.
  - contradiction.
  - destruct x; try contradiction; [congruence|].
    destruct Hend as (_ & _ & Hend).
    destruct (ends_with_shutdown (log w));
      [destruct Hend as (_ & H2 & _) | destruct Hend as (H1 & _)]; congruence.
  - destruct Hend as (_ & Hend).
    destruct (terminated (log w)); cbn [negb] in *.
    + destruct Hend as (H1 & _); congruence.
    + apply stuck_in_read_silent in Hstuck. congruence.
Qed.

(** The theorem at work: `test_mcp_permissions` on the healthy server. *)
Lemma function_returns_on_healthy_server :
  binary usual = true
  /\ on_sigterm usual = Exits
  /\ existsb silent healthy = false
  /\ existsb interrupt healthy = false
  /\ exists v,
       fst (function Decoder.decode test_permissions_py (start_in usual healthy 0))
       = Normal v.
Proof.
  split; [reflexivity|]. split; [reflexivity|].
  split; [reflexivity|]. split; [reflexivity|].
  apply (function_returns Decoder.decode test_permissions_py usual healthy 0);
    reflexivity.
Defined.

(** ** What the value of `test_mcp_permissions` tells *)

(** X9.  When `test_mcp_permissions` returns `True`, all four requests
    were written, the first two reads returned lines that decode, and the
    handler did not run. *)
Theorem true_after_four_requests
    (json_loads : string -> option json) (rs : list reply) (now : Z) :
  fst (function json_loads test_permissions_py (start rs now)) = Normal (RBool true) ->
  writes (log (snd (function json_loads test_permissions_py (start rs now))))
  = requests test_permissions_py now
  /\ forallb answered
       (firstn 2 (reads (log (snd (function json_loads test_permissions_py
                                     (start rs now))))))
     = true
  /\ reported (log (snd (function json_loads test_permissions_py (start rs now)))) = [].
Proof.
  intros Htrue.
  usual_facts json_loads test_permissions_py rs now. subst o.
  destruct Hend as (_ & _ & _ & _ & _ & H4 & Ha & Hr).
  repeat split; try assumption.
  rewrite Hrequests, H4. reflexivity.
Qed.

(** The theorem at work: the healthy server. *)
Lemma true_after_four_requests_on_healthy_server :
  fst (function Decoder.decode test_permissions_py (start healthy 0))
  = Normal (RBool true)
  /\ writes (log (snd (function Decoder.decode test_permissions_py (start healthy 0))))
     = requests test_permissions_py 0
  /\ forallb answered
       (firstn 2 (reads (log (snd (function Decoder.decode test_permissions_py
                                     (start healthy 0))))))
     = true
  /\ reported (log (snd (function Decoder.decode test_permissions_py (start healthy 0))))
     = [].
Proof.
  split; [reflexivity|].
  apply (true_after_four_requests Decoder.decode healthy 0). reflexivity.
Defined.

(** X10.  When `test_mcp_permissions` returns `False`, it has printed why:
    the line of the handler, or the line that tells that no response was
    received. *)
Theorem false_is_explained
    (json_loads : string -> option json) (rs : list reply) (now : Z) :
  fst (function json_loads test_permissions_py (start rs now)) = Normal (RBool false) ->
  says "Error during testing: {e}"
    (log (snd (function json_loads test_permissions_py (start rs now))))
  || says "   No response received"
       (log (snd (function json_loads test_permissions_py (start rs now))))
  = true.
Proof.
  intros Hfalse.
  usual_facts json_loads test_permissions_py rs now. subst o.
  apply Hend.
Qed.

(** The theorem at work: the child has exited before the first request. *)
Lemma false_is_explained_without_server :
  fst (function Decoder.decode test_permissions_py (start [] 0)) = Normal (RBool false)
  /\ says "Error during testing: {e}"
       (log (snd (function Decoder.decode test_permissions_py (start [] 0))))
     || says "   No response received"
          (log (snd (function Decoder.decode test_permissions_py (start [] 0))))
     = true.
Proof.
  split; [reflexivity|].
  apply (false_is_explained Decoder.decode [] 0). reflexivity.
Defined.

(** ** The verdicts of test 3 *)

(** X11.  Test 3 of `test_permissions.py`, on a response that is a JSON
    object: the line for an error that is not about permissions is printed
    exactly when the response has an `error` that is an object whose
    `message` is a string without `permission` in it; the line that warns
    of permissions too permissive is printed exactly when the response has
    a `result` and no `error`; and at most one of the three verdicts is
    printed, and none twice. *)
Theorem create_block_failure_verdicts
    (kvs : list (string * json)) (rest : list reply) (now : Z) :
  says TestPermissions.permission_unexpected
    (log (snd (TestPermissions.test3_create_block
                 (start (Says (Encodes (JObj kvs)) :: rest) now))))
  = failed_for_another_reason kvs
  /\ says TestPermissions.permission_too_permissive
       (log (snd (TestPermissions.test3_create_block
                    (start (Says (Encodes (JObj kvs)) :: rest) now))))
     = (has_key "result" kvs && negb (has_key "error" kvs))
  /\ (length (verdicts (log (snd (TestPermissions.test3_create_block
                                    (start (Says (Encodes (JObj kvs)) :: rest) now)))))
      <=? 1)%nat = true.
Proof.
  unfold failed_for_another_reason, has_key.
  destruct (assoc "error" kvs) as [[| | | | | |error]|] eqn:He;
    try (paths_with_equations; repeat split; reflexivity).
  destruct (assoc "message" error) as [[| | | |message| |]|] eqn:Hm;
    paths_with_equations; repeat split; reflexivity.
Qed.

(** ** The count of blocks in test 4 *)

(** X12.  Test 4 of `test_permissions.py`, on a response that has a
    `result` and no `error`: whatever the result holds and whatever
    `json.loads` makes of its text, the count of the blocks raises nothing
    (the bare `except` takes everything), the test falls through, and after
    the line that reports success exactly one more line is printed: the
    count, or the line that tells that the list was retrieved. *)
Theorem list_blocks_count_is_guarded
    (json_loads : string -> option json)
    (kvs : list (string * json)) (result : json) (rest : list reply) (now : Z) :
  assoc "error" kvs = None ->
  assoc "result" kvs = Some result ->
  fst (TestPermissions.test4_list_blocks json_loads
         (start (Says (Encodes (JObj kvs)) :: rest) now))
  = Normal tt
  /\ exists line,
       In line ["   Found {len(result_data)} blocks";
                "   Block list retrieved successfully"]
       /\ printed (log (snd (TestPermissions.test4_list_blocks json_loads
                               (start (Says (Encodes (JObj kvs)) :: rest) now))))
          = ["\n4. Testing list_blocks tool (should work with read permission)...";
             TestPermissions.list_blocks_succeeded;
             line].
Proof.
  intros He Hr.
  paths_with_equations;
    (split; [reflexivity|]);
    first [ exists "   Found {len(result_data)} blocks";
            split; [cbn [In]; tauto | reflexivity]
          | exists "   Block list retrieved successfully";
            split; [cbn [In]; tauto | reflexivity] ].
Qed.

(** The theorem at work: the text decodes to two blocks. *)
Lemma list_blocks_count_is_guarded_on_two_blocks :
  fst (TestPermissions.test4_list_blocks Decoder.decode
         (start [Says (Encodes (JObj two_blocks))] 0))
  = Normal tt
  /\ exists line,
       In line ["   Found {len(result_data)} blocks";
                "   Block list retrieved successfully"]
       /\ printed (log (snd (TestPermissions.test4_list_blocks Decoder.decode
                               (start [Says (Encodes (JObj two_blocks))] 0))))
          = ["\n4. Testing list_blocks tool (should work with read permission)...";
             TestPermissions.list_blocks_succeeded;
             line].
Proof.
  apply (list_blocks_count_is_guarded Decoder.decode two_blocks
           (JObj [("content",
                   JArr [JObj [("type", JStr "text"); ("text", JStr "[{}, {}]")]])])
           [] 0); reflexivity.
Defined.

(** ** The answer to `initialize` *)

(** X13.  `test_tool_execution` does not look at the answer to
    `initialize`: whatever line `readline()` returns there (a result, an
    error, text that does not decode, nothing), it prints that it is
    initialized, and the call ends the same way, with the same requests
    written and the same lines printed, the values shown in them
    included. *)
Theorem initialize_answer_is_not_read
    (x y : line) (rest : list reply) (now : Z) :
  says "✓ Initialized"
    (log (snd (TestToolExecution.test_tool_execution (start (Says x :: rest) now))))
  = true
  /\ fst (TestToolExecution.test_tool_execution (start (Says x :: rest) now))
     = fst (TestToolExecution.test_tool_execution (start (Says y :: rest) now))
  /\ writes (log (snd (TestToolExecution.test_tool_execution
                         (start (Says x :: rest) now))))
     = writes (log (snd (TestToolExecution.test_tool_execution
                           (start (Says y :: rest) now))))
  /\ lines (log (snd (TestToolExecution.test_tool_execution
                        (start (Says x :: rest) now))))
     = lines (log (snd (TestToolExecution.test_tool_execution
                          (start (Says y :: rest) now)))).
Proof. paths; repeat split; reflexivity. Qed.

(** X14.  `test_mcp_server` announces its second request exactly when
    the child took the first one and answered with a document or with
    nothing at all: the end of the stream is no error there (the script
    prints that no response was received and goes on), while a line that
    does not decode stops it. *)
Theorem test_mcp_server_goes_on_without_response
    (r : reply) (rest : list reply) (now : Z) :
  says "\nSending tools/list request..."
    (log (snd (TestMcp.test_mcp_server (start (r :: rest) now))))
  = lets_go_on r.
Proof. paths; reflexivity. Qed.

(** X15.  In `test_complete.py` and `test_final.py` an error in answer to
    `initialize` stops nothing: the script prints the error on a line that
    starts with the check mark and sends `session/create` all the same. *)
Theorem initialize_error_does_not_stop
    (json_loads : string -> option json) (s : script)
    (kvs : list (string * json)) (x : line) (rest : list reply) (now : Z) :
  In s [test_complete_py; test_final_py] ->
  says "✓ Initialize: OK"
    (log (snd (function json_loads s
                 (start (Says (Encodes (JObj kvs)) :: Says x :: rest) now))))
  = has_key "result" kvs
  /\ says "✓ Initialize: ERROR: {init_response}"
       (log (snd (function json_loads s
                    (start (Says (Encodes (JObj kvs)) :: Says x :: rest) now))))
     = negb (has_key "result" kvs)
  /\ firstn 2 (writes (log (snd (function json_loads s
                  (start (Says (Encodes (JObj kvs)) :: Says x :: rest) now)))))
     = firstn 2 (requests s now).
Proof.
  intros Hs. unfold has_key.
  destruct (assoc "result" kvs) as [result|] eqn:Hr;
    destruct s; cbn [In] in Hs;
    try (exfalso; intuition discriminate); clear Hs;
    paths_with_equations; repeat split; reflexivity.
Qed.

(** The theorem at work: `test_complete` and a server that does not know
    `initialize`. *)
Lemma initialize_error_does_not_stop_test_complete :
  says "✓ Initialize: OK"
    (log (snd (function Decoder.decode test_complete_py
                 (start [Says (Encodes (JObj method_not_found)); Says EOF] 0))))
  = has_key "result" method_not_found
  /\ says "✓ Initialize: ERROR: {init_response}"
       (log (snd (function Decoder.decode test_complete_py
                    (start [Says (Encodes (JObj method_not_found)); Says EOF] 0))))
     = negb (has_key "result" method_not_found)
  /\ firstn 2 (writes (log (snd (function Decoder.decode test_complete_py
                  (start [Says (Encodes (JObj method_not_found)); Says EOF] 0)))))
     = firstn 2 (requests test_complete_py 0).
Proof.
  apply (initialize_error_does_not_stop Decoder.decode test_complete_py
           method_not_found EOF [] 0).
  cbn [In]. tauto.
Defined.

(** X16.  In `test_simple.py` an answer to `initialize` without a
    `result` ends the function at once: it prints the failure, returns
    `None` from inside the `try`, sends no second request, and the
    `finally` block still shuts the child down. *)
Theorem failed_initialize_stops_test_simple
    (j : json) (rest : list reply) (now : Z) :
  contains "result" j = Ok false ->
  let (o, w) := TestSimple.test_basic_functionality
                  (start (Says (Encodes j) :: rest) now) in
  o = Normal RNone
  /\ writes (log w) = [TestSimple.init_request]
  /\ printed (log w)
     = ["🧪 Testing Forge MCP Server\n";
        "1. Testing initialization...";
        "   ✗ Failed: {response}"]
  /\ ends_with_shutdown (log w) = true.
Proof. intros Hj. paths_with_equations; repeat split; reflexivity. Qed.

(** The theorem at work: the server does not know `initialize`. *)
Lemma failed_initialize_stops_test_simple_on_error :
  let (o, w) := TestSimple.test_basic_functionality
                  (start [Says (Encodes (JObj method_not_found))] 0) in
  o = Normal RNone
  /\ writes (log w) = [TestSimple.init_request]
  /\ printed (log w)
     = ["🧪 Testing Forge MCP Server\n";
        "1. Testing initialization...";
        "   ✗ Failed: {response}"]
  /\ ends_with_shutdown (log w) = true.
Proof.
  apply (failed_initialize_stops_test_simple (JObj method_not_found) [] 0).
  reflexivity.
Defined.

(** ** A session without an id *)

Ltac using_more_equations :=
  repeat (progress (repeat match goal with
                           | H : assoc _ _ = _ |- _ => rewrite H
                           | H : contains _ _ = _ |- _ => rewrite H
                           | H : getitem _ _ = _ |- _ => rewrite H
                           end); exec).

Ltac paths_with_more_equations :=
  exec; using_more_equations;
  repeat (first [loop | fork]; exec; using_more_equations).

(** X17.  In the three scripts that create a session, when the answer to
    `session/create` has a `result` from which no `session_id` can be
    taken (the key is missing, or the result is no object), the subscript
    raises, and no step after it is executed: no third request is written
    and none of the lines of the later steps is printed, the line that
    announces the session included. *)
Theorem no_step_after_session_without_id
    (json_loads : string -> option json) (s : script)
    (r1 : reply) (kvs : list (string * json)) (result : json) (e : exn)
    (rest : list reply) (now : Z) :
  In s [test_complete_py; test_final_py; test_tool_execution_py] ->
  assoc "result" kvs = Some result ->
  getitem result "session_id" = Err e ->
  (length (writes (log (snd (function json_loads s
             (start (r1 :: Says (Encodes (JObj kvs)) :: rest) now)))))
   <=? 2)%nat = true
  /\ forallb
       (fun text =>
          negb (says text (log (snd (function json_loads s
                  (start (r1 :: Says (Encodes (JObj kvs)) :: rest) now))))))
       (lines_after_session s)
     = true.
Proof.
  intros Hs Hkvs He.
  assert (Hexn : is_Exception e = true).
  { pose proof (getitem_safe result "session_id") as S. rewrite He in S. exact S. }
  destruct s; cbn [In] in Hs;
    try (exfalso; intuition discriminate); clear Hs;
    paths_with_more_equations; rewrite ?Hexn; exec; split; reflexivity.
Qed.

(** The theorem at work: `test_tool_execution` and a session result that
    names its id `id`. *)
Lemma no_step_after_session_without_id_in_test_tool_execution :
  (length (writes (log (snd (function Decoder.decode test_tool_execution_py
             (start [answer 1 initialized; Says (Encodes (JObj session_without_id));
                     answer 3 (JObj [("files", JArr [])])] 0)))))
   <=? 2)%nat = true
  /\ forallb
       (fun text =>
          negb (says text (log (snd (function Decoder.decode test_tool_execution_py
                  (start [answer 1 initialized;
                          Says (Encodes (JObj session_without_id));
                          answer 3 (JObj [("files", JArr [])])] 0))))))
       (lines_after_session test_tool_execution_py)
     = true.
Proof.
  apply (no_step_after_session_without_id Decoder.decode test_tool_execution_py
           (answer 1 initialized) session_without_id
           (JObj [("id", JStr "s-1")]) KeyError
           [answer 3 (JObj [("files", JArr [])])] 0).
  - cbn [In]. tauto.
  - reflexivity.
  - reflexivity.
Defined.

(** ** Answers without a result in `test_permissions.py` *)

(** X18.  Tests 1 and 2 of `test_permissions.py` do not notice an answer
    without a `result` (an error, say): the defaults of `.get` stand in
    for it.  Test 1 prints an empty server info and test 2 prints that
    there are 0 tools and no tool; both fall through to the next test. *)
Theorem missing_result_is_defaulted
    (kvs : list (string * json)) (rest : list reply) (now : Z) :
  assoc "result" kvs = None ->
  (fst (TestPermissions.test1_initialize
          (start (Says (Encodes (JObj kvs)) :: rest) now)) = Normal tt
   /\ log (snd (TestPermissions.test1_initialize
                  (start (Says (Encodes (JObj kvs)) :: rest) now)))
      = [Print "1. Sending initialize request..." [];
         Write TestPermissions.init_request; Flush;
         Readline (Encodes (JObj kvs));
         Print "   Initialize response: {response.get('result', {}).get('server_info', {})}"
           [AJson (JObj [])]])
  /\ (fst (TestPermissions.test2_list_tools
             (start (Says (Encodes (JObj kvs)) :: rest) now)) = Normal tt
      /\ log (snd (TestPermissions.test2_list_tools
                     (start (Says (Encodes (JObj kvs)) :: rest) now)))
         = [Print "\n2. Checking available tools..." [];
            Write TestPermissions.tools_request; Flush;
            Readline (Encodes (JObj kvs));
            Print "   Available tools: {len(tools)}" [AInt 0]]).
Proof.
  intros Hr. repeat split; exec; using_equations; reflexivity.
Qed.

(** The theorem at work: the server does not know the method. *)
Lemma missing_result_is_defaulted_on_error :
  (fst (TestPermissions.test1_initialize
          (start [Says (Encodes (JObj method_not_found))] 0)) = Normal tt
   /\ log (snd (TestPermissions.test1_initialize
                  (start [Says (Encodes (JObj method_not_found))] 0)))
      = [Print "1. Sending initialize request..." [];
         Write TestPermissions.init_request; Flush;
         Readline (Encodes (JObj method_not_found));
         Print "   Initialize response: {response.get('result', {}).get('server_info', {})}"
           [AJson (JObj [])]])
  /\ (fst (TestPermissions.test2_list_tools
             (start [Says (Encodes (JObj method_not_found))] 0)) = Normal tt
      /\ log (snd (TestPermissions.test2_list_tools
                     (start [Says (Encodes (JObj method_not_found))] 0)))
         = [Print "\n2. Checking available tools..." [];
            Write TestPermissions.tools_request; Flush;
            Readline (Encodes (JObj method_not_found));
            Print "   Available tools: {len(tools)}" [AInt 0]]).
Proof.
  apply (missing_result_is_defaulted method_not_found [] 0). reflexivity.
Defined.

(** ** What the scripts echo *)

(** X19.  `debug_session` prints the stripped text of every line it
    reads, in the order it reads them, whether the line decodes or not,
    and the stripped text of nothing else; it decodes none. *)
Theorem debug_session_echoes_what_it_reads (rs : list reply) (now : Z) :
  echoed (log (snd (DebugSession.debug_session (start rs now))))
  = reads (log (snd (DebugSession.debug_session (start rs now)))).
Proof. paths; reflexivity. Qed.

(** X20.  `test_mcp_server` prints every document it reads, in the order
    it reads them, and prints no other document. *)
Theorem test_mcp_server_echoes_the_documents (rs : list reply) (now : Z) :
  dumped (log (snd (TestMcp.test_mcp_server (start rs now))))
  = decoded (reads (log (snd (TestMcp.test_mcp_server (start rs now))))).
Proof. paths; reflexivity. Qed.

(** ** A child that has gone *)

(** X21.  When the child does not take the first request (it has exited,
    or closed its input), every script writes nothing, reports the
    `BrokenPipeError` in its handler, shuts the child down and returns;
    the process exits with 1 for `test_permissions.py` and with 0 for the
    other six. *)
Theorem broken_pipe_at_first_request
    (json_loads : string -> option json) (s : script) (rs : list reply) (now : Z) :
  gone rs = true ->
  writes (log (snd (run json_loads s rs now))) = []
  /\ reported (log (snd (run json_loads s rs now))) = [BrokenPipeError]
  /\ ends_with_shutdown (log (snd (function json_loads s (start rs now)))) = true
  /\ exit_code json_loads s rs now = (if returns_bool s then Exit 1 else Exit 0).
Proof.
  intros Hgone.
  destruct rs as [|[| | |x|] rs]; try discriminate Hgone;
    destruct s; repeat split; reflexivity.
Qed.

(** The theorem at work: `test_complete.py` and a child that has exited. *)
Lemma broken_pipe_at_first_request_in_test_complete :
  writes (log (snd (run Decoder.decode test_complete_py [] 0))) = []
  /\ reported (log (snd (run Decoder.decode test_complete_py [] 0)))
     = [BrokenPipeError]
  /\ ends_with_shutdown
       (log (snd (function Decoder.decode test_complete_py (start [] 0)))) = true
  /\ exit_code Decoder.decode test_complete_py [] 0
     = (if returns_bool test_complete_py then Exit 1 else Exit 0).
Proof.
  apply (broken_pipe_at_first_request Decoder.decode test_complete_py [] 0).
  reflexivity.
Defined.

(** ** The last line of `test_permissions.py` *)

(** Looking for a line past the lines of the loop. *)
Ltac says_past_the_loop :=
  repeat match goal with
         | |- context [says ?line
                         (?pre ++ Print ?t [AInt ?n] :: tool_lines ?text ?xs ++ ?post)] =>
             rewrite (says_over t n text xs post line pre) by reflexivity
         | |- context [says ?line ?l] =>
             lazymatch l with
             | context [Print ?t [AInt ?n] :: (tool_lines ?text ?xs ++ ?post)] =>
                 let pre := before_loop l in
                 change l with (pre ++ Print t [AInt n] :: tool_lines text xs ++ post)
             end
         end.

(** X22.  The `__main__` block of `test_permissions.py` ends with a line
    that agrees with the exit code, in every setting in which the child
    is started: the line that tells that the test completed is printed
    exactly in the runs that exit with 0, and the line that tells that it
    failed exactly in the runs that exit with 1; neither is printed in a
    run that hangs or is interrupted.  When the program is not there,
    the run exits with 1 on the exception of `Popen`, and neither line
    is printed. *)
Theorem last_line_agrees_with_exit_code
    (json_loads : string -> option json) (e : setting) (rs : list reply) (now : Z) :
  says "\n✅ Permission test completed"
    (log (snd (run_in json_loads e test_permissions_py rs now)))
  = exits_with 0 (exit_code_in json_loads e test_permissions_py rs now)
  /\ says "\n❌ Permission test failed"
       (log (snd (run_in json_loads e test_permissions_py rs now)))
     = exits_with 1 (exit_code_in json_loads e test_permissions_py rs now)
       && binary e.
Proof.
  unfold exit_code_in. destruct e as [b sg].
  set (agree := fun r : outcome unit * world =>
         says "\n✅ Permission test completed" (log (snd r))
         = exits_with 0 (exit_status (fst r))
         /\ says "\n❌ Permission test failed" (log (snd r))
            = exits_with 1 (exit_status (fst r)) && b).
  change (agree (run_in json_loads (mkSetting b sg) test_permissions_py rs now)).
  paths;
    subst agree; cbv beta iota delta [fst snd]; in_order; says_past_the_loop;
    vm_compute; split; reflexivity.
Qed.
